(** * JalRakshak: the dashboard's alert logic and its data-access layer

    A shallow embedding of the TypeScript sources

      - [src/components/AlertSystem.tsx]   threshold alerts, acknowledge / resolve,
                                           the counts and buttons shown
      - [src/components/Dashboard.tsx]     the status of the metric cards
      - [src/App.tsx]                      the 3-second sensor simulation
      - [src/lib/supabase.ts]              the [JalRakshakAPI] wrappers, in two
                                           revisions: without and with the
                                           configuration guard and photo support
      - [src/hooks/useRealTimeData.ts]     the state the hooks keep from fetched
                                           rows and realtime events

    Numbers.  A finite JavaScript number is given by the rational it
    denotes; the comparisons against the thresholds 3.0, 35, 90, 6.5 and
    8.5 and the clamps [Math.max] / [Math.min] are exact on doubles, so
    they are exact here.  Sums and products are taken exactly, without the
    rounding of doubles.  The props of [AlertSystem] may also be NaN or
    infinite.

    Effects.  The wrappers are asynchronous code that awaits the backend,
    the clock, the random source and the console; [Async] is such code as
    a tree of requests, and [run] executes it against an environment that
    answers each request.  Properties are stated for every environment:
    the backend is not part of the repository, and nothing is assumed of
    it beyond the shape of its answers.

    Data.  Strings are [string], typed rows are records, the objects the
    code fills field by field ([updateData], the health map) are
    [gmap string _]. *)

From Stdlib Require Import Ascii QArith Qabs Qminmax Qround Lqa.
From stdpp Require Import gmap strings list fin_maps sorting pretty.

(** ** Numbers *)

(** [x < y] on rationals, as a boolean. *)
Definition Qltb (x y : Q) : bool := if Qlt_le_dec x y then true else false.

(** A JavaScript number: a finite double, given by the rational it
    denotes, or one of the three special values. *)
Inductive number :=
| Num (q : Q)
| NaN
| Infinity
| NegInfinity.

(** [x < y] as JavaScript evaluates it: false when an operand is NaN. *)
Definition js_lt (x y : number) : bool :=
  match x, y with
  | Num a, Num b => Qltb a b
  | Num _, Infinity => true
  | NegInfinity, Num _ => true
  | NegInfinity, Infinity => true
  | _, _ => false
  end.

(** [Array.prototype.push]. *)
Definition push {A} (l : list A) (x : A) : list A := l ++ [x].

(** ** AlertSystem.tsx *)

Module AlertSystem.

Record SensorData := {
  waterFlow : number;
  pressure : number;
  quality : number;
  temperature : number;
  ph : number;
  turbidity : number;
  solarPumpStatus : string
}.

Inductive AlertType := critical | warning | info.

#[global] Instance AlertType_eq_dec : EqDecision AlertType.
Proof. solve_decision. Defined.

Record Alert := {
  id : string;
  type : AlertType;
  title : string;
  description : string;
  timestamp : string;
  source : string;
  acknowledged : bool;
  resolved : bool;
  actions : option (list string)
}.

(** The three demonstration alerts appended to every generated list. *)
Definition staticAlerts : list Alert := [
  {| id := "leak-001";
     type := critical;
     title := "Pipeline Leak Detected";
     description := "AI algorithms detected potential leak in Ward 3 distribution line based on pressure drop patterns.";
     timestamp := "2025-01-21 14:30:00";
     source := "ML Leak Detection";
     acknowledged := false;
     resolved := false;
     actions := Some ["Dispatch field team"; "Isolate affected section"; "Notify affected households"] |};
  {| id := "maintenance-001";
     type := info;
     title := "Scheduled Maintenance Reminder";
     description := "Monthly tank cleaning is due for Main Storage Tank.";
     timestamp := "2025-01-21 12:00:00";
     source := "Maintenance Schedule";
     acknowledged := true;
     resolved := false;
     actions := Some ["Schedule cleaning crew"; "Notify supervisor"; "Prepare equipment"] |};
  {| id := "consumption-001";
     type := warning;
     title := "Unusual Consumption Pattern";
     description := "Ward 2 showing 25% higher than average water consumption in the last 24 hours.";
     timestamp := "2025-01-21 10:15:00";
     source := "Consumption Analytics";
     acknowledged := true;
     resolved := true;
     actions := Some ["Investigate cause"; "Check for leaks"; "Contact ward representative"] |}
].

Section Effect.
(** What the effect reads from the platform: [Number.prototype.toFixed],
    [Date.now()] and [new Date().toLocaleString()]. *)
Variable toFixed : number -> nat -> string.
Variable Date_now : Z.
Variable toLocaleString : string.

(** The body of the [useEffect] up to the static alerts: one [if] per
    threshold, each pushing one alert. *)
Definition newAlerts (sensorData : SensorData) : list Alert :=
  let newAlerts : list Alert := [] in
  let newAlerts :=
    if js_lt (pressure sensorData) (Num 3.0) then
      push newAlerts
        {| id := "pressure-" +:+ pretty Date_now;
           type := critical;
           title := "Low System Pressure Detected";
           description := "Pressure has dropped to " +:+ toFixed (pressure sensorData) 1
                            +:+ " bar, below the critical threshold of 3.0 bar.";
           timestamp := toLocaleString;
           source := "Pressure Sensor P1";
           acknowledged := false;
           resolved := false;
           actions := Some ["Check pump operation"; "Inspect for leaks"; "Contact maintenance team"] |}
    else newAlerts in
  let newAlerts :=
    if js_lt (waterFlow sensorData) (Num 35) then
      push newAlerts
        {| id := "flow-" +:+ pretty Date_now;
           type := warning;
           title := "Low Water Flow Rate";
           description := "Flow rate is " +:+ toFixed (waterFlow sensorData) 1
                            +:+ " L/min, below optimal range.";
           timestamp := toLocaleString;
           source := "Flow Sensor F1";
           acknowledged := false;
           resolved := false;
           actions := Some ["Check filter condition"; "Verify pump settings"; "Inspect inlet valve"] |}
    else newAlerts in
  let newAlerts :=
    if js_lt (quality sensorData) (Num 90) then
      push newAlerts
        {| id := "quality-" +:+ pretty Date_now;
           type := warning;
           title := "Water Quality Below Standard";
           description := "Quality index is " +:+ toFixed (quality sensorData) 0
                            +:+ "%, below the recommended 90% threshold.";
           timestamp := toLocaleString;
           source := "Quality Sensor Q1";
           acknowledged := false;
           resolved := false;
           actions := Some ["Test chlorine levels"; "Check filtration system"; "Schedule water sampling"] |}
    else newAlerts in
  let newAlerts :=
    if js_lt (ph sensorData) (Num 6.5) || js_lt (Num 8.5) (ph sensorData) then
      push newAlerts
        {| id := "ph-" +:+ pretty Date_now;
           type := warning;
           title := "pH Level Out of Range";
           description := "pH level is " +:+ toFixed (ph sensorData) 1
                            +:+ ", outside the safe range of 6.5-8.5.";
           timestamp := toLocaleString;
           source := "pH Sensor";
           acknowledged := false;
           resolved := false;
           actions := Some ["Test pH manually"; "Check sensor calibration"; "Adjust treatment system"] |}
    else newAlerts in
  newAlerts.

(** The value handed to [setAlerts] at the end of the effect. *)
Definition generateAlerts (sensorData : SensorData) : list Alert :=
  newAlerts sensorData ++ staticAlerts.
End Effect.

(** [{ ...alert, acknowledged: true }] *)
Definition with_acknowledged (alert : Alert) : Alert :=
  {| id := id alert; type := type alert; title := title alert;
     description := description alert; timestamp := timestamp alert;
     source := source alert;
     acknowledged := true;
     resolved := resolved alert; actions := actions alert |}.

(** [{ ...alert, resolved: true, acknowledged: true }] *)
Definition with_resolved_acknowledged (alert : Alert) : Alert :=
  {| id := id alert; type := type alert; title := title alert;
     description := description alert; timestamp := timestamp alert;
     source := source alert;
     acknowledged := true;
     resolved := true; actions := actions alert |}.

(** The next [alerts] state set by the two click handlers. *)
Definition acknowledgeAlert (alerts : list Alert) (alertId : string) : list Alert :=
  map (fun alert => if String.eqb (id alert) alertId then with_acknowledged alert else alert) alerts.

Definition resolveAlert (alerts : list Alert) (alertId : string) : list Alert :=
  map (fun alert => if String.eqb (id alert) alertId then with_resolved_acknowledged alert else alert) alerts.

(** The component's [alerts] state: it starts empty and changes only in
    the effect (run for each new [sensorData]) and in the two handlers. *)
Inductive step : list Alert -> list Alert -> Prop :=
| step_effect toFixed now locale sensorData alerts :
    step alerts (generateAlerts toFixed now locale sensorData)
| step_acknowledge alertId alerts :
    step alerts (acknowledgeAlert alerts alertId)
| step_resolve alertId alerts :
    step alerts (resolveAlert alerts alertId).

Inductive reachable : list Alert -> Prop :=
| reachable_init : reachable []
| reachable_step alerts alerts' : reachable alerts -> step alerts alerts' -> reachable alerts'.

(** An alert of the given severity and title is in the list. *)
Definition shows (ty : AlertType) (ttl : string) (alerts : list Alert) : Prop :=
  exists a, a ∈ alerts /\ type a = ty /\ title a = ttl.


(** The four alerts the thresholds can raise, by severity and title. *)
Definition threshold_alerts : list (AlertType * string) := [
  (critical, "Low System Pressure Detected");
  (warning, "Low Water Flow Rate");
  (warning, "Water Quality Below Standard");
  (warning, "pH Level Out of Range")
].

Definition kind (a : Alert) : AlertType * string := (type a, title a).

End AlertSystem.

(** ** lib/supabase.ts: rows, requests and asynchronous code *)

(** Values thrown in the code: [new Error(message)], the [RangeError] of
    an invalid date, and the error objects a database or storage call
    hands back. *)
Inductive JsError :=
| Error (message : string)
| RangeError (message : string)
| PostgrestError (message : string) (code : string)
| StorageError (message : string).

(** The [{ data, error }] pair a backend call resolves to; exactly one of
    the two is non-null. *)
Inductive Response (A : Type) :=
| Success (data : A)
| Failure (error : JsError).
Arguments Success {A} data.
Arguments Failure {A} error.

(** The interfaces of supabase.ts (the revision with photo support; the
    plain revision declares a subset of these fields).  [data] is the
    interface without its [id]. *)
Module SensorReading.
Record data := {
  sensor_id : string;
  sensor_type : string;
  value : Q;
  unit : string;
  location : string;
  timestamp : string;
  status : string;
  device_id : option string;
  battery_level : option Z;
  signal_strength : option Z
}.
Record t := { id : string; fields : data }.
End SensorReading.

Module Complaint.
(** [Omit<Complaint, 'id' | 'submitted_at'>] *)
Record data := {
  description : string;
  location : string;
  priority : string;
  status : string;
  submitted_by : string;
  photo_urls : option (list string);
  gps_coordinates : option string;
  gps_accuracy : option Q;
  resolved_at : option string;
  assigned_to : option string;
  resolution_notes : option string;
  category : option string
}.
(** [{ ...complaint, submitted_at }], the object inserted. *)
Record insert := { complaint : data; submitted_at : string }.
Record t := { id : string; row : insert }.
End Complaint.

Module MaintenanceTask.
Record data := {
  task : string;
  description : string;
  priority : string;
  status : string;
  due_date : string;
  assigned_to : string;
  completed_at : option string;
  location : string;
  estimated_duration : option Q;
  actual_duration : option Q;
  cost : option Q;
  notes : option string;
  photo_urls : option (list string)
}.
Record t := { id : string; fields : data }.
End MaintenanceTask.

Module Alert.
Record data := {
  type : string;
  title : string;
  description : string;
  source : string;
  timestamp : string;
  acknowledged : bool;
  resolved : bool;
  acknowledged_by : option string;
  acknowledged_at : option string;
  resolved_by : option string;
  resolved_at : option string;
  sensor_id : option string;
  threshold_value : option Q;
  current_value : option Q;
  location : option string;
  severity_score : option Q
}.
Record t := { id : string; fields : data }.
End Alert.

(** Rows of the two column-restricted selects. *)
Record ConsumptionRow := { cr_value : Q; cr_timestamp : string }.
Record HealthRow := { sensor_type : string; status : string; timestamp : string }.

(** A browser [File]; only its name is read. *)
Record File := { name : string; content : list Z }.

(** Field values of the objects passed to [update]. *)
Inductive Value :=
| VBool (b : bool)
| VString (s : string)
| VStrings (l : list string).

Inductive Table := sensor_readings | complaints | maintenance_tasks | alerts.

(** The column lists given to [select]. *)
Inductive Columns :=
| star                            (* '*' or no argument *)
| value_timestamp                 (* 'value, timestamp' *)
| sensor_type_status_timestamp.   (* 'sensor_type, status, timestamp' *)

Inductive Filter :=
| eq_ (column : string) (value : string)
| gte (column : string) (value : string).

Record Order := { column : string; ascending : bool }.

Definition Row (t : Table) : Type :=
  match t with
  | sensor_readings => SensorReading.t
  | complaints => Complaint.t
  | maintenance_tasks => MaintenanceTask.t
  | alerts => Alert.t
  end.

Definition NewRow (t : Table) : Type :=
  match t with
  | sensor_readings => SensorReading.data
  | complaints => Complaint.insert
  | maintenance_tasks => MaintenanceTask.data
  | alerts => Alert.data
  end.

Definition Selected (t : Table) (c : Columns) : Type :=
  match c with
  | star => Row t
  | value_timestamp => ConsumptionRow
  | sensor_type_status_timestamp => HealthRow
  end.

(** What the code asks of its environment: the query-builder chains it
    awaits, the storage calls, the realtime channel, and the browser's
    clock, random source and console.  One constructor per chain shape,
    its arguments the arguments written in the source. *)
Inductive Request :=
(* from(t).select(c) [.eq / .gte] .order(col, {ascending}) [.limit(n)] *)
| Select (t : Table) (c : Columns) (filters : list Filter) (order : Order) (limit : option nat)
(* from(t).insert(rows).select() *)
| Insert (t : Table) (rows : list (NewRow t))
(* from(t).insert(rows).select().single() *)
| InsertSingle (t : Table) (rows : list (NewRow t))
(* from(t).update(patch).eq(..).select() *)
| Update (t : Table) (patch : gmap string Value) (filters : list Filter)
(* from(t).update(patch).eq(..).select().single() *)
| UpdateSingle (t : Table) (patch : gmap string Value) (filters : list Filter)
(* storage.from(bucket).upload(path, file, { cacheControl, upsert }) *)
| StorageUpload (bucket path : string) (file : File) (cacheControl : string) (upsert : bool)
(* storage.from(bucket).getPublicUrl(path), read at .data.publicUrl *)
| StorageGetPublicUrl (bucket path : string)
(* channel(name).on('postgres_changes', { event, schema, table }, callback).subscribe() *)
| ChannelSubscribe (channel : string) (event schema table : string)
| Date_now
| Date_toISOString (ms : Z)
| Math_random
| console_warn (message : string)
| console_error (message : string) (error : JsError).

(** The handle [subscribeTo] returns: a realtime channel of the backend,
    or the stand-in object [{ unsubscribe: () => {} }]. *)
Inductive Subscription :=
| RealtimeChannel (topic : string)
| NoopSubscription.

Definition Reply (r : Request) : Type :=
  match r with
  | Select t c _ _ _ => Response (list (Selected t c))
  | Insert t _ => Response (list (Row t))
  | InsertSingle t _ => Response (Row t)
  | Update t _ _ => Response (list (Row t))
  | UpdateSingle t _ _ => Response (Row t)
  | StorageUpload _ _ _ _ _ => Response string
  | StorageGetPublicUrl _ _ => string
  | ChannelSubscribe _ _ _ _ => Subscription
  | Date_now => Z
  | Date_toISOString _ => string
  | Math_random => Q
  | console_warn _ => unit
  | console_error _ _ => unit
  end.

(** Code that awaits requests and then returns or throws. *)
Inductive Async (A : Type) : Type :=
| Return (a : A)
| Throw (e : JsError)
| Await (r : Request) (k : Reply r -> Async A).
Arguments Return {A} a.
Arguments Throw {A} e.
Arguments Await {A} r k.

Fixpoint bind {A B} (p : Async A) (f : A -> Async B) : Async B :=
  match p with
  | Return a => f a
  | Throw e => Throw e
  | Await r k => Await r (fun x => bind (k x) f)
  end.

#[global] Instance Async_ret : MRet Async := @Return.
#[global] Instance Async_bind : MBind Async := fun A B f p => bind p f.

(** [await] of one request. *)
Definition await (r : Request) : Async (Reply r) := Await r Return.

(** [try { p } catch (error) { handler error }] *)
Fixpoint try_catch {A} (p : Async A) (handler : JsError -> Async A) : Async A :=
  match p with
  | Return a => Return a
  | Throw e => handler e
  | Await r k => Await r (fun x => try_catch (k x) handler)
  end.

(** [for (const x of l) { body x }] *)
Fixpoint for_of {A} (l : list A) (body : A -> Async unit) : Async unit :=
  match l with
  | [] => Return tt
  | x :: l' => _ ← body x; for_of l' body
  end.

(** A loop that updates one local variable on each round. *)
Fixpoint for_of_with {A S} (l : list A) (s : S) (body : A -> S -> Async S) : Async S :=
  match l with
  | [] => Return s
  | x :: l' => s' ← body x s; for_of_with l' s' body
  end.

(** ** Running asynchronous code against an environment *)

(** An environment answers every request, possibly changing its state. *)
Definition Environment (St : Type) : Type := forall r : Request, St -> Reply r * St.

Inductive Outcome (A : Type) :=
| Returned (a : A)
| Thrown (e : JsError).
Arguments Returned {A} a.
Arguments Thrown {A} e.

(** One request together with the answer it got. *)
Record Interaction := { req : Request; rep : Reply req }.

Record Run (St A : Type) := {
  outcome : Outcome A;
  final : St;
  log : list Interaction      (* the requests made and their answers, oldest first *)
}.
Arguments outcome {St A} _.
Arguments final {St A} _.
Arguments log {St A} _.

Fixpoint run {St A} (env : Environment St) (p : Async A) (s : St) : Run St A :=
  match p with
  | Return a => {| outcome := Returned a; final := s; log := [] |}
  | Throw e => {| outcome := Thrown e; final := s; log := [] |}
  | Await r k =>
      let rest := run env (k (env r s).1) (env r s).2 in
      {| outcome := outcome rest;
         final := final rest;
         log := {| req := r; rep := (env r s).1 |} :: log rest |}
  end.

(** [new Date().toISOString()] *)
Definition new_Date_toISOString : Async string :=
  ms ← await Date_now; await (Date_toISOString ms).

(** A string used as a condition: [undefined] and [''] are falsy. *)
Definition truthy (s : option string) : option string :=
  match s with
  | Some x => if String.eqb x "" then None else Some x
  | None => None
  end.

(** [Math.trunc] on rationals, and the largest time value a [Date] holds. *)
Definition Qtrunc (x : Q) : Z := if Qltb x 0 then Qceiling x else Qfloor x.
Definition max_time_value : Z := 8640000000000000.

(** A time value a [Date] can hold: at most 8.64e15 ms from the epoch. *)
Definition valid_time (t : Q) : bool := Qle_bool (Qabs t) (inject_Z max_time_value).

(** [new Date(t).toISOString()]: a [RangeError] when [t] is no valid time. *)
Definition new_Date_of_toISOString (t : Q) : Async string :=
  if valid_time t then await (Date_toISOString (Qtrunc t))
  else Throw (RangeError "Invalid time value").

(** The per-type reduction of [getSystemHealth]: a [Map] filled by
    [forEach] unless the key is present, then turned into an object. *)
Definition healthMap_step (healthMap : gmap string string) (reading : HealthRow)
  : gmap string string :=
  if decide (is_Some (healthMap !! sensor_type reading)) then healthMap
  else <[sensor_type reading := status reading]> healthMap.

Definition healthMap_of (data : list HealthRow) : gmap string string :=
  foldl healthMap_step ∅ data.

(** *** The revision of src/lib/supabase.ts without a configuration guard *)

Module Plain.

(* Sensor Data *)
Definition getLatestSensorReadings : Async (list SensorReading.t) :=
  response ← await (Select sensor_readings star []
                      {| column := "timestamp"; ascending := false |} (Some 50%nat));
  match response with
  | Failure error => Throw error
  | Success data => Return data
  end.

Definition getSensorReadingsByType (sensorType : string) : Async (list SensorReading.t) :=
  response ← await (Select sensor_readings star [eq_ "sensor_type" sensorType]
                      {| column := "timestamp"; ascending := false |} (Some 100%nat));
  match response with
  | Failure error => Throw error
  | Success data => Return data
  end.

Definition insertSensorReading (reading : SensorReading.data)
  : Async (option SensorReading.t) :=
  response ← await (Insert sensor_readings [reading]);
  match response with
  | Failure error => Throw error
  | Success data => Return (head data)
  end.

(* Complaints *)
Definition getComplaints : Async (list Complaint.t) :=
  response ← await (Select complaints star []
                      {| column := "submitted_at"; ascending := false |} None);
  match response with
  | Failure error => Throw error
  | Success data => Return data
  end.

Definition submitComplaint (complaint : Complaint.data) : Async (option Complaint.t) :=
  submitted_at ← new_Date_toISOString;
  response ← await (Insert complaints
                      [ {| Complaint.complaint := complaint;
                           Complaint.submitted_at := submitted_at |} ]);
  match response with
  | Failure error => Throw error
  | Success data => Return (head data)
  end.

(** The object [updateData] as it stands when [update] is called. *)
Definition updateComplaintStatus_updateData (status : string) (assignedTo : option string)
  : Async (gmap string Value) :=
  let updateData : gmap string Value := {[ "status" := VString status ]} in
  let updateData :=
    match truthy assignedTo with
    | Some a => <["assigned_to" := VString a]> updateData
    | None => updateData
    end in
  if String.eqb status "resolved" then
    resolved_at ← new_Date_toISOString;
    Return (<["resolved_at" := VString resolved_at]> updateData)
  else Return updateData.

Definition updateComplaintStatus (id status : string) (assignedTo : option string)
  : Async (option Complaint.t) :=
  updateData ← updateComplaintStatus_updateData status assignedTo;
  response ← await (Update complaints updateData [eq_ "id" id]);
  match response with
  | Failure error => Throw error
  | Success data => Return (head data)
  end.

(* Maintenance Tasks *)
Definition getMaintenanceTasks : Async (list MaintenanceTask.t) :=
  response ← await (Select maintenance_tasks star []
                      {| column := "due_date"; ascending := true |} None);
  match response with
  | Failure error => Throw error
  | Success data => Return data
  end.

Definition createMaintenanceTask (task : MaintenanceTask.data)
  : Async (option MaintenanceTask.t) :=
  response ← await (Insert maintenance_tasks [task]);
  match response with
  | Failure error => Throw error
  | Success data => Return (head data)
  end.

Definition completeMaintenanceTask (id : string) : Async (option MaintenanceTask.t) :=
  completed_at ← new_Date_toISOString;
  response ← await (Update maintenance_tasks
                      (<["completed_at" := VString completed_at]>
                         {[ "status" := VString "completed" ]})
                      [eq_ "id" id]);
  match response with
  | Failure error => Throw error
  | Success data => Return (head data)
  end.

(* Alerts *)
Definition getAlerts : Async (list Alert.t) :=
  response ← await (Select alerts star []
                      {| column := "timestamp"; ascending := false |} None);
  match response with
  | Failure error => Throw error
  | Success data => Return data
  end.

Definition createAlert (alert : Alert.data) : Async (option Alert.t) :=
  response ← await (Insert alerts [alert]);
  match response with
  | Failure error => Throw error
  | Success data => Return (head data)
  end.

Definition acknowledgeAlert_updateData : gmap string Value :=
  {[ "acknowledged" := VBool true ]}.

Definition acknowledgeAlert (id : string) : Async (option Alert.t) :=
  response ← await (Update alerts acknowledgeAlert_updateData [eq_ "id" id]);
  match response with
  | Failure error => Throw error
  | Success data => Return (head data)
  end.

Definition resolveAlert_updateData : gmap string Value :=
  <["acknowledged" := VBool true]> {[ "resolved" := VBool true ]}.

Definition resolveAlert (id : string) : Async (option Alert.t) :=
  response ← await (Update alerts resolveAlert_updateData [eq_ "id" id]);
  match response with
  | Failure error => Throw error
  | Success data => Return (head data)
  end.

(* Real-time subscriptions; the callback is the backend's to keep. *)
Definition subscribeTo {Callback : Type} (table : string) (callback : Callback)
  : Async Subscription :=
  await (ChannelSubscribe (table +:+ "_changes") "*" "public" table).

(* Analytics *)
Definition getConsumptionAnalytics (days : option Q) : Async (list ConsumptionRow) :=
  let days := default 7%Q days in
  now ← await Date_now;
  since ← new_Date_of_toISOString (inject_Z now - days * 24 * 60 * 60 * 1000)%Q;
  response ← await (Select sensor_readings value_timestamp
                      [eq_ "sensor_type" "flow"; gte "timestamp" since]
                      {| column := "timestamp"; ascending := true |} None);
  match response with
  | Failure error => Throw error
  | Success data => Return data
  end.

Definition getSystemHealth : Async (gmap string string) :=
  response ← await (Select sensor_readings sensor_type_status_timestamp []
                      {| column := "timestamp"; ascending := false |} (Some 100%nat));
  match response with
  | Failure error => Throw error
  | Success data => Return (healthMap_of data)
  end.

End Plain.

(** *** The revision of src/lib/supabase.ts with the configuration guard
        and photo support *)

Module Guarded.

(** A successful select answers with an array, so the [data || []] of
    the reads in this revision is [data]. *)

(** The client [createClient(url, key)] returns. *)
Record SupabaseClient := { supabaseUrl : string; supabaseAnonKey : string }.

(** The module-level [supabase]: a client only if both environment
    variables are set and are not the placeholders. *)
Definition supabase_of_env (VITE_SUPABASE_URL VITE_SUPABASE_ANON_KEY : option string)
  : option SupabaseClient :=
  match truthy VITE_SUPABASE_URL, truthy VITE_SUPABASE_ANON_KEY with
  | Some supabaseUrl, Some supabaseAnonKey =>
      if negb (String.eqb supabaseUrl "https://your-project.supabase.co")
         && negb (String.eqb supabaseAnonKey "your-anon-key-here")
      then Some {| supabaseUrl := supabaseUrl; supabaseAnonKey := supabaseAnonKey |}
      else None
  | _, _ => None
  end.

Definition isSupabaseConfigured (supabase : option SupabaseClient) : bool :=
  match supabase with Some _ => true | None => false end.

(** [s.split('.').pop()]: what follows the last dot, or all of [s]. *)
Fixpoint split_pop (s acc : string) : string :=
  match s with
  | EmptyString => acc
  | String c s' =>
      if Ascii.eqb c "."%char then split_pop s' "" else split_pop s' (acc +:+ String c "")
  end.

(** [String.prototype.toUpperCase] on the ASCII letters. *)
Definition upper_char (c : ascii) : ascii :=
  let n := Ascii.N_of_ascii c in
  if (97 <=? n)%N && (n <=? 122)%N then Ascii.ascii_of_N (n - 32) else c.

Fixpoint toUpperCase (s : string) : string :=
  match s with
  | EmptyString => EmptyString
  | String c s' => String (upper_char c) (toUpperCase s')
  end.

(** The entries of [sensorTypes] in [simulateSensorData]. *)
Module SensorSpec.
Record t := {
  type : string;
  unit : string;
  location : string;
  baseValue : Q
}.
End SensorSpec.

Definition sensorTypes : list SensorSpec.t := [
  {| SensorSpec.type := "flow"; SensorSpec.unit := "L/min";
     SensorSpec.location := "Main Distribution"; SensorSpec.baseValue := 45 |};
  {| SensorSpec.type := "pressure"; SensorSpec.unit := "bar";
     SensorSpec.location := "Pump Station 1"; SensorSpec.baseValue := 3.8 |};
  {| SensorSpec.type := "quality"; SensorSpec.unit := "%";
     SensorSpec.location := "Storage Tank A"; SensorSpec.baseValue := 95 |};
  {| SensorSpec.type := "temperature"; SensorSpec.unit := "°C";
     SensorSpec.location := "Storage Tank A"; SensorSpec.baseValue := 24 |}
].

Section API.
Variable supabase : option SupabaseClient.

(* Photo Upload Helper *)
Definition uploadComplaintPhoto (file : File) (complaintId : string) : Async string :=
  match supabase with
  | None => Throw (Error "Supabase not configured")
  | Some _ =>
      let fileExt := split_pop (name file) "" in
      now ← await Date_now;
      let fileName := "complaint_" +:+ complaintId +:+ "_" +:+ pretty now +:+ "." +:+ fileExt in
      let filePath := "complaints/" +:+ fileName in
      response ← await (StorageUpload "complaint_photos" filePath file "3600" false);
      match response with
      | Failure error => Throw error
      | Success _ => await (StorageGetPublicUrl "complaint_photos" filePath)
      end
  end.

Definition uploadMaintenancePhoto (file : File) (taskId : string) : Async string :=
  match supabase with
  | None => Throw (Error "Supabase not configured")
  | Some _ =>
      let fileExt := split_pop (name file) "" in
      now ← await Date_now;
      let fileName := "maintenance_" +:+ taskId +:+ "_" +:+ pretty now +:+ "." +:+ fileExt in
      let filePath := "maintenance/" +:+ fileName in
      response ← await (StorageUpload "maintenance_photos" filePath file "3600" false);
      match response with
      | Failure error => Throw error
      | Success _ => await (StorageGetPublicUrl "maintenance_photos" filePath)
      end
  end.

(* Sensor Data *)
Definition getLatestSensorReadings : Async (list SensorReading.t) :=
  match supabase with
  | None =>
      _ ← await (console_warn "Supabase not configured, returning mock data");
      Return []
  | Some _ =>
      response ← await (Select sensor_readings star []
                          {| column := "timestamp"; ascending := false |} (Some 50%nat));
      match response with
      | Failure error => Throw error
      | Success data => Return data
      end
  end.

Definition getSensorReadingsByType (sensorType : string) : Async (list SensorReading.t) :=
  match supabase with
  | None =>
      _ ← await (console_warn "Supabase not configured, returning mock data");
      Return []
  | Some _ =>
      response ← await (Select sensor_readings star [eq_ "sensor_type" sensorType]
                          {| column := "timestamp"; ascending := false |} (Some 100%nat));
      match response with
      | Failure error => Throw error
      | Success data => Return data
      end
  end.

Definition insertSensorReading (reading : SensorReading.data) : Async SensorReading.t :=
  match supabase with
  | None => Throw (Error "Supabase not configured")
  | Some _ =>
      response ← await (InsertSingle sensor_readings [reading]);
      match response with
      | Failure error => Throw error
      | Success data => Return data
      end
  end.

(* Complaints with Photo Support *)
Definition getComplaints : Async (list Complaint.t) :=
  match supabase with
  | None =>
      _ ← await (console_warn "Supabase not configured, returning mock data");
      Return []
  | Some _ =>
      response ← await (Select complaints star []
                          {| column := "submitted_at"; ascending := false |} None);
      match response with
      | Failure error => Throw error
      | Success data => Return data
      end
  end.

(** The upload loop: every photo is tried; a failed upload is logged and
    leaves [photoUrls] as it was. *)
Definition upload_photos (photos : list File) (complaintId : string) : Async (list string) :=
  for_of_with photos [] (fun photo photoUrls =>
    try_catch
      (photoUrl ← uploadComplaintPhoto photo complaintId;
       Return (push photoUrls photoUrl))
      (fun error =>
         _ ← await (console_error "Failed to upload photo:" error);
         Return photoUrls)).

Definition submitComplaint (complaint : Complaint.data) (photos : option (list File))
  : Async Complaint.t :=
  match supabase with
  | None => Throw (Error "Supabase not configured")
  | Some _ =>
      (* Insert complaint first *)
      submitted_at ← new_Date_toISOString;
      response ← await (InsertSingle complaints
                          [ {| Complaint.complaint := complaint;
                               Complaint.submitted_at := submitted_at |} ]);
      match response with
      | Failure complaintError => Throw complaintError
      | Success complaintData =>
          (* Upload photos if provided *)
          match photos with
          | Some ((_ :: _) as photos) =>
              photoUrls ← upload_photos photos (Complaint.id complaintData);
              (* Update complaint with photo URLs *)
              match photoUrls with
              | _ :: _ =>
                  response ← await (UpdateSingle complaints
                                      {[ "photo_urls" := VStrings photoUrls ]}
                                      [eq_ "id" (Complaint.id complaintData)]);
                  match response with
                  | Failure updateError => Throw updateError
                  | Success updatedData => Return updatedData
                  end
              | [] => Return complaintData
              end
          | _ => Return complaintData
          end
      end
  end.

(** The object [updateData] as it stands when [update] is called. *)
Definition updateComplaintStatus_updateData
  (status : string) (assignedTo resolutionNotes : option string) : Async (gmap string Value) :=
  let updateData : gmap string Value := {[ "status" := VString status ]} in
  let updateData :=
    match truthy assignedTo with
    | Some a => <["assigned_to" := VString a]> updateData
    | None => updateData
    end in
  let updateData :=
    match truthy resolutionNotes with
    | Some n => <["resolution_notes" := VString n]> updateData
    | None => updateData
    end in
  if String.eqb status "resolved" then
    resolved_at ← new_Date_toISOString;
    Return (<["resolved_at" := VString resolved_at]> updateData)
  else Return updateData.

Definition updateComplaintStatus
  (id status : string) (assignedTo resolutionNotes : option string) : Async Complaint.t :=
  match supabase with
  | None => Throw (Error "Supabase not configured")
  | Some _ =>
      updateData ← updateComplaintStatus_updateData status assignedTo resolutionNotes;
      response ← await (UpdateSingle complaints updateData [eq_ "id" id]);
      match response with
      | Failure error => Throw error
      | Success data => Return data
      end
  end.

(* Maintenance Tasks *)
Definition getMaintenanceTasks : Async (list MaintenanceTask.t) :=
  match supabase with
  | None =>
      _ ← await (console_warn "Supabase not configured, returning mock data");
      Return []
  | Some _ =>
      response ← await (Select maintenance_tasks star []
                          {| column := "due_date"; ascending := true |} None);
      match response with
      | Failure error => Throw error
      | Success data => Return data
      end
  end.

Definition createMaintenanceTask (task : MaintenanceTask.data) : Async MaintenanceTask.t :=
  match supabase with
  | None => Throw (Error "Supabase not configured")
  | Some _ =>
      response ← await (InsertSingle maintenance_tasks [task]);
      match response with
      | Failure error => Throw error
      | Success data => Return data
      end
  end.

Definition completeMaintenanceTask
  (id : string) (notes : option string) (photos : option (list File))
  : Async MaintenanceTask.t :=
  match supabase with
  | None => Throw (Error "Supabase not configured")
  | Some _ =>
      (* Upload photos if provided *)
      photoUrls ←
        match photos with
        | Some ((_ :: _) as photos) =>
            for_of_with photos [] (fun photo photoUrls =>
              try_catch
                (photoUrl ← uploadMaintenancePhoto photo id;
                 Return (push photoUrls photoUrl))
                (fun error =>
                   _ ← await (console_error "Failed to upload maintenance photo:" error);
                   Return photoUrls))
        | _ => Return []
        end;
      completed_at ← new_Date_toISOString;
      let updateData : gmap string Value :=
        <["completed_at" := VString completed_at]> {[ "status" := VString "completed" ]} in
      let updateData :=
        match truthy notes with
        | Some n => <["notes" := VString n]> updateData
        | None => updateData
        end in
      let updateData :=
        match photoUrls with
        | _ :: _ => <["photo_urls" := VStrings photoUrls]> updateData
        | [] => updateData
        end in
      response ← await (UpdateSingle maintenance_tasks updateData [eq_ "id" id]);
      match response with
      | Failure error => Throw error
      | Success data => Return data
      end
  end.

(* Alerts *)
Definition getAlerts : Async (list Alert.t) :=
  match supabase with
  | None =>
      _ ← await (console_warn "Supabase not configured, returning mock data");
      Return []
  | Some _ =>
      response ← await (Select alerts star []
                          {| column := "timestamp"; ascending := false |} None);
      match response with
      | Failure error => Throw error
      | Success data => Return data
      end
  end.

Definition createAlert (alert : Alert.data) : Async Alert.t :=
  match supabase with
  | None => Throw (Error "Supabase not configured")
  | Some _ =>
      response ← await (InsertSingle alerts [alert]);
      match response with
      | Failure error => Throw error
      | Success data => Return data
      end
  end.

Definition acknowledgeAlert_updateData (userId : option string) : Async (gmap string Value) :=
  acknowledged_at ← new_Date_toISOString;
  let updateData : gmap string Value :=
    <["acknowledged_at" := VString acknowledged_at]> {[ "acknowledged" := VBool true ]} in
  match truthy userId with
  | Some u => Return (<["acknowledged_by" := VString u]> updateData)
  | None => Return updateData
  end.

Definition acknowledgeAlert (id : string) (userId : option string) : Async Alert.t :=
  match supabase with
  | None => Throw (Error "Supabase not configured")
  | Some _ =>
      updateData ← acknowledgeAlert_updateData userId;
      response ← await (UpdateSingle alerts updateData [eq_ "id" id]);
      match response with
      | Failure error => Throw error
      | Success data => Return data
      end
  end.

Definition resolveAlert_updateData (userId : option string) : Async (gmap string Value) :=
  resolved_at ← new_Date_toISOString;
  acknowledged_at ← new_Date_toISOString;
  let updateData : gmap string Value :=
    <["acknowledged_at" := VString acknowledged_at]>
      (<["resolved_at" := VString resolved_at]>
         (<["acknowledged" := VBool true]> {[ "resolved" := VBool true ]})) in
  match truthy userId with
  | Some u =>
      Return (<["acknowledged_by" := VString u]> (<["resolved_by" := VString u]> updateData))
  | None => Return updateData
  end.

Definition resolveAlert (id : string) (userId : option string) : Async Alert.t :=
  match supabase with
  | None => Throw (Error "Supabase not configured")
  | Some _ =>
      updateData ← resolveAlert_updateData userId;
      response ← await (UpdateSingle alerts updateData [eq_ "id" id]);
      match response with
      | Failure error => Throw error
      | Success data => Return data
      end
  end.

(* Real-time subscriptions *)
Definition subscribeTo {Callback : Type} (table : string) (callback : Callback)
  : Async Subscription :=
  match supabase with
  | None =>
      _ ← await (console_warn "Supabase not configured, real-time subscriptions disabled");
      Return NoopSubscription
  | Some _ => await (ChannelSubscribe (table +:+ "_changes") "*" "public" table)
  end.

(* Analytics *)
Definition getConsumptionAnalytics (days : option Q) : Async (list ConsumptionRow) :=
  let days := default 7%Q days in
  match supabase with
  | None =>
      _ ← await (console_warn "Supabase not configured, returning mock data");
      Return []
  | Some _ =>
      now ← await Date_now;
      since ← new_Date_of_toISOString (inject_Z now - days * 24 * 60 * 60 * 1000)%Q;
      response ← await (Select sensor_readings value_timestamp
                          [eq_ "sensor_type" "flow"; gte "timestamp" since]
                          {| column := "timestamp"; ascending := true |} None);
      match response with
      | Failure error => Throw error
      | Success data => Return data
      end
  end.

Definition getSystemHealth : Async (gmap string string) :=
  match supabase with
  | None =>
      _ ← await (console_warn "Supabase not configured, returning mock data");
      Return ∅
  | Some _ =>
      response ← await (Select sensor_readings sensor_type_status_timestamp []
                          {| column := "timestamp"; ascending := false |} (Some 100%nat));
      match response with
      | Failure error => Throw error
      | Success data => Return (healthMap_of data)
      end
  end.

(** One round of the loop in [simulateSensorData]. *)
Definition simulate_one (sensor : SensorSpec.t) : Async unit :=
  random ← await Math_random;
  let variation := ((random - 0.5) * 2)%Q in      (* ±1 unit variation *)
  let value := (SensorSpec.baseValue sensor + variation)%Q in
  let status :=
    if Qltb value (SensorSpec.baseValue sensor * 0.8)%Q then "warning" else "normal" in
  timestamp ← new_Date_toISOString;
  battery ← await Math_random;
  signal ← await Math_random;
  _ ← insertSensorReading
        {| SensorReading.sensor_id := toUpperCase (SensorSpec.type sensor) +:+ "_001";
           SensorReading.sensor_type := SensorSpec.type sensor;
           SensorReading.value := Qmax 0 value;
           SensorReading.unit := SensorSpec.unit sensor;
           SensorReading.location := SensorSpec.location sensor;
           SensorReading.timestamp := timestamp;
           SensorReading.status := status;
           SensorReading.device_id := None;
           SensorReading.battery_level := Some (Qfloor (battery * 20) + 80)%Z;   (* 80-100% *)
           SensorReading.signal_strength := Some (Qfloor (signal * 30) + 70)%Z   (* 70-100% *) |};
  Return tt.

(* Real-time sensor data simulation (for demo purposes) *)
Definition simulateSensorData : Async unit :=
  match supabase with
  | None => Return tt
  | Some _ => for_of sensorTypes simulate_one
  end.

End API.
End Guarded.

(** ** App.tsx: the simulated sensor data *)

Module App.

(** The [sensorData] state.  It starts finite and a tick keeps it
    finite, so its numbers are given as rationals. *)
Record SensorData := {
  waterFlow : Q;
  pressure : Q;
  quality : Q;
  temperature : Q;
  ph : Q;
  turbidity : Q;
  solarPumpStatus : string
}.

(** The state as the [sensorData] prop of [<AlertSystem />]. *)
Definition props (s : SensorData) : AlertSystem.SensorData :=
  {| AlertSystem.waterFlow := Num (waterFlow s);
     AlertSystem.pressure := Num (pressure s);
     AlertSystem.quality := Num (quality s);
     AlertSystem.temperature := Num (temperature s);
     AlertSystem.ph := Num (ph s);
     AlertSystem.turbidity := Num (turbidity s);
     AlertSystem.solarPumpStatus := solarPumpStatus s |}.

(** The initial state. *)
Definition initialSensorData : SensorData :=
  {| waterFlow := 45.2;
     pressure := 3.8;
     quality := 95;
     temperature := 24.5;
     ph := 7.2;
     turbidity := 0.8;
     solarPumpStatus := "active" |}.

(** The six results of [Math.random()] one timer tick consumes, in the
    order the object literal evaluates them. *)
Record Draws := {
  r_waterFlow : Q;
  r_pressure : Q;
  r_quality : Q;
  r_temperature : Q;
  r_ph : Q;
  r_turbidity : Q
}.

(** [Math.random()] returns a number in [0, 1). *)
Definition is_random (r : Q) : Prop := (0 <= r /\ r < 1)%Q.

Definition valid (d : Draws) : Prop :=
  is_random (r_waterFlow d) /\ is_random (r_pressure d) /\ is_random (r_quality d) /\
  is_random (r_temperature d) /\ is_random (r_ph d) /\ is_random (r_turbidity d).

(** The updater passed to [setSensorData] every 3000 ms. *)
Definition tick (d : Draws) (prev : SensorData) : SensorData :=
  {| waterFlow := (waterFlow prev + (r_waterFlow d - 0.5) * 2)%Q;
     pressure := Qmax 0 (pressure prev + (r_pressure d - 0.5) * 0.2)%Q;
     quality := Qmax 85 (Qmin 100 (quality prev + (r_quality d - 0.5) * 2))%Q;
     temperature := (temperature prev + (r_temperature d - 0.5) * 0.5)%Q;
     ph := Qmax 6.5 (Qmin 8.5 (ph prev + (r_ph d - 0.5) * 0.1))%Q;
     turbidity := Qmax 0 (turbidity prev + (r_turbidity d - 0.5) * 0.1)%Q;
     solarPumpStatus := solarPumpStatus prev |}.

(** The states the timer can bring the component to. *)
Inductive reachable : SensorData -> Prop :=
| reachable_initial : reachable initialSensorData
| reachable_tick d prev : reachable prev -> valid d -> reachable (tick d prev).

(** The bounds kept by the clamps. *)
Definition in_bounds (s : SensorData) : Prop :=
  (0 <= pressure s)%Q /\ (0 <= turbidity s)%Q /\
  (85 <= quality s /\ quality s <= 100)%Q /\
  (6.5 <= ph s /\ ph s <= 8.5)%Q.

End App.

(** ** AlertSystem.tsx: what the component shows of its alerts *)

Module AlertSystemView.
Import AlertSystem.

(** The [filter] state: 'all', or one of the three alert types. *)
Inductive FilterType := all | only (type : AlertType).

(** [a.type === ty] *)
Definition type_is (ty : AlertType) (a : Alert) : bool := bool_decide (type a = ty).

(** [filter === 'all' ? alerts : alerts.filter(alert => alert.type === filter)] *)
Definition filteredAlerts (filter : FilterType) (alerts : list Alert) : list Alert :=
  match filter with
  | all => alerts
  | only ty => List.filter (fun alert => type_is ty alert) alerts
  end.

Definition criticalCount (alerts : list Alert) : nat :=
  length (List.filter (fun a => type_is critical a && negb (resolved a)) alerts).

Definition warningCount (alerts : list Alert) : nat :=
  length (List.filter (fun a => type_is warning a && negb (resolved a)) alerts).

(** The counts of the 'Total Active' and 'Resolved Today' cards. *)
Definition totalActive (alerts : list Alert) : nat :=
  length (List.filter (fun a => negb (resolved a)) alerts).

Definition resolvedToday (alerts : list Alert) : nat :=
  length (List.filter (fun a => resolved a) alerts).

(** The number on a filter button:
    [filterType === 'all' ? alerts.length : alerts.filter(a => a.type === filterType).length] *)
Definition filterCount (filterType : FilterType) (alerts : list Alert) : nat :=
  match filterType with
  | all => length alerts
  | only ty => length (List.filter (fun a => type_is ty a) alerts)
  end.

(** The conditions under which an alert's card renders its Acknowledge
    button, its Resolve button and its list of recommended actions. *)
Definition offersAcknowledge (alert : Alert) : bool := negb (acknowledged alert).

Definition offersResolve (alert : Alert) : bool := negb (resolved alert).

Definition listsActions (alert : Alert) : bool :=
  match actions alert with
  | Some (_ :: _) => negb (resolved alert)
  | _ => false
  end.

End AlertSystemView.

(** ** Dashboard.tsx: the status of the four metric cards *)

Module Dashboard.
Import AlertSystem.

Inductive Icon := Droplets | Gauge | Shield | Thermometer.

Record Metric := {
  label : string;
  value : string;
  icon : Icon;
  color : string;
  status : string
}.

(** [sensorLoading ? sensorData : realTimeSensorData] *)
Definition currentSensorData (sensorLoading : bool) (sensorData realTimeSensorData : SensorData)
  : SensorData :=
  if sensorLoading then sensorData else realTimeSensorData.

Section Render.
Variable toFixed : number -> nat -> string.

Definition metrics (currentSensorData : SensorData) : list Metric := [
  {| label := "Water Flow Rate";
     value := toFixed (waterFlow currentSensorData) 1 +:+ " L/min";
     icon := Droplets;
     color := "from-blue-500 to-blue-600";
     status := if js_lt (Num 40) (waterFlow currentSensorData) then "normal" else "warning" |};
  {| label := "System Pressure";
     value := toFixed (pressure currentSensorData) 1 +:+ " bar";
     icon := Gauge;
     color := "from-green-500 to-green-600";
     status := if js_lt (Num 3) (pressure currentSensorData) then "normal" else "critical" |};
  {| label := "Water Quality";
     value := toFixed (quality currentSensorData) 0 +:+ "%";
     icon := Shield;
     color := "from-emerald-500 to-emerald-600";
     status := if js_lt (Num 90) (quality currentSensorData) then "normal" else "warning" |};
  {| label := "Temperature";
     value := toFixed (temperature currentSensorData) 1 +:+ "°C";
     icon := Thermometer;
     color := "from-orange-500 to-orange-600";
     status := "normal" |}
].
End Render.

End Dashboard.

(** ** hooks/useRealTimeData.ts: the state kept by the hooks *)

Module Hooks.

(** The payload of a 'postgres_changes' event, as the callbacks read it:
    [new] is read for INSERT and UPDATE events only. *)
Record Payload (R : Type) := { eventType : string; new : R }.
Arguments eventType {R} _.
Arguments new {R} _.

(** *** useSensorData *)

(** The [sensorData] state of the hook has the fields of [App]'s state
    and starts with the same values. *)
Definition initialSensorData : App.SensorData :=
  {| App.waterFlow := 45.2;
     App.pressure := 3.8;
     App.quality := 95;
     App.temperature := 24.5;
     App.ph := 7.2;
     App.turbidity := 0.8;
     App.solarPumpStatus := "active" |}.

(** The [switch] on [sensor_type]: one field is assigned, or none. *)
Definition assign (sensor_type : string) (value : Q) (data : App.SensorData) : App.SensorData :=
  if String.eqb sensor_type "flow" then
    {| App.waterFlow := value; App.pressure := App.pressure data;
       App.quality := App.quality data; App.temperature := App.temperature data;
       App.ph := App.ph data; App.turbidity := App.turbidity data;
       App.solarPumpStatus := App.solarPumpStatus data |}
  else if String.eqb sensor_type "pressure" then
    {| App.waterFlow := App.waterFlow data; App.pressure := value;
       App.quality := App.quality data; App.temperature := App.temperature data;
       App.ph := App.ph data; App.turbidity := App.turbidity data;
       App.solarPumpStatus := App.solarPumpStatus data |}
  else if String.eqb sensor_type "quality" then
    {| App.waterFlow := App.waterFlow data; App.pressure := App.pressure data;
       App.quality := value; App.temperature := App.temperature data;
       App.ph := App.ph data; App.turbidity := App.turbidity data;
       App.solarPumpStatus := App.solarPumpStatus data |}
  else if String.eqb sensor_type "temperature" then
    {| App.waterFlow := App.waterFlow data; App.pressure := App.pressure data;
       App.quality := App.quality data; App.temperature := value;
       App.ph := App.ph data; App.turbidity := App.turbidity data;
       App.solarPumpStatus := App.solarPumpStatus data |}
  else if String.eqb sensor_type "ph" then
    {| App.waterFlow := App.waterFlow data; App.pressure := App.pressure data;
       App.quality := App.quality data; App.temperature := App.temperature data;
       App.ph := value; App.turbidity := App.turbidity data;
       App.solarPumpStatus := App.solarPumpStatus data |}
  else if String.eqb sensor_type "turbidity" then
    {| App.waterFlow := App.waterFlow data; App.pressure := App.pressure data;
       App.quality := App.quality data; App.temperature := App.temperature data;
       App.ph := App.ph data; App.turbidity := value;
       App.solarPumpStatus := App.solarPumpStatus data |}
  else data.

(** [fetchInitialData]: the object handed to [setSensorData], a copy of
    the state assigned to by [readings.forEach]. *)
Definition processedData (sensorData : App.SensorData) (readings : list SensorReading.t)
  : App.SensorData :=
  foldl (fun processedData reading =>
           assign (SensorReading.sensor_type (SensorReading.fields reading))
                  (SensorReading.value (SensorReading.fields reading))
                  processedData)
        sensorData readings.

(** The callback on 'sensor_readings', in the revision that switches on
    the sensor type: the updater given to [setSensorData]. *)
Definition sensorData_updater (payload : Payload SensorReading.t) (prev : App.SensorData)
  : App.SensorData :=
  if String.eqb (eventType payload) "INSERT" then
    let newReading := new payload in
    assign (SensorReading.sensor_type (SensorReading.fields newReading))
           (SensorReading.value (SensorReading.fields newReading))
           prev
  else prev.

(** The same callback in the revision with a computed key,
    [{ ...prev, [sensor_type === 'flow' ? 'waterFlow' : sensor_type]: value }].
    Here the state is an object that can take any key. *)
Inductive Field :=
| FNumber (x : Q)
| FString (s : string).

Definition object_of (data : App.SensorData) : gmap string Field :=
  <["solarPumpStatus" := FString (App.solarPumpStatus data)]>
    (<["turbidity" := FNumber (App.turbidity data)]>
       (<["ph" := FNumber (App.ph data)]>
          (<["temperature" := FNumber (App.temperature data)]>
             (<["quality" := FNumber (App.quality data)]>
                (<["pressure" := FNumber (App.pressure data)]>
                   {[ "waterFlow" := FNumber (App.waterFlow data) ]}))))).

Definition sensorData_updater_by_key (payload : Payload SensorReading.t)
    (prev : gmap string Field) : gmap string Field :=
  if String.eqb (eventType payload) "INSERT" then
    let newReading := new payload in
    let key :=
      if String.eqb (SensorReading.sensor_type (SensorReading.fields newReading)) "flow"
      then "waterFlow"
      else SensorReading.sensor_type (SensorReading.fields newReading) in
    <[key := FNumber (SensorReading.value (SensorReading.fields newReading))]> prev
  else prev.

(** The interval callback of the revision with photo support: one
    [simulateSensorData], its error caught and logged. *)
Definition simulationInterval_callback (supabase : option Guarded.SupabaseClient) : Async unit :=
  try_catch (Guarded.simulateSensorData supabase)
    (fun error => await (console_error "Failed to simulate sensor data:" error)).

(** *** useComplaints and useAlerts *)

(** The callback on 'complaints' and the one on 'alerts' are the same
    code over rows with an [id]: an INSERT puts the new row in front, an
    UPDATE maps it over the rows of its id. *)
Section Rows.
Context {R : Type} (id : R -> string).

Definition rows_updater (payload : Payload R) (prev : list R) : list R :=
  if String.eqb (eventType payload) "INSERT" then
    new payload :: prev
  else if String.eqb (eventType payload) "UPDATE" then
    map (fun row => if String.eqb (id row) (id (new payload)) then new payload else row) prev
  else prev.
End Rows.

Definition complaints_updater : Payload Complaint.t -> list Complaint.t -> list Complaint.t :=
  rows_updater Complaint.id.

Definition alerts_updater : Payload Alert.t -> list Alert.t -> list Alert.t :=
  rows_updater Alert.id.

(** *** useSensorMonitoring *)

(** [[payload.new, ...prev.slice(0, 49)]] on an INSERT. *)
Definition sensorReadings_updater (payload : Payload SensorReading.t)
    (prev : list SensorReading.t) : list SensorReading.t :=
  if String.eqb (eventType payload) "INSERT" then new payload :: take 49 prev else prev.

Definition getSensorsByType (sensorReadings : list SensorReading.t) (type : string)
  : list SensorReading.t :=
  List.filter
    (fun reading => String.eqb (SensorReading.sensor_type (SensorReading.fields reading)) type)
    sensorReadings.

Definition getLatestReading (sensorReadings : list SensorReading.t) (sensorType : string)
  : option SensorReading.t :=
  List.find
    (fun reading => String.eqb (SensorReading.sensor_type (SensorReading.fields reading)) sensorType)
    sensorReadings.

End Hooks.

(** ** Reading a log *)

(** The sensor readings handed to [insert]. *)
Definition readings_of (t : Table) : list (NewRow t) -> list SensorReading.data :=
  match t with
  | sensor_readings => fun rows => rows
  | _ => fun _ => []
  end.

Definition inserted_reading (i : Interaction) : list SensorReading.data :=
  match req i with
  | Insert t rows | InsertSingle t rows => readings_of t rows
  | _ => []
  end.

Definition inserted_readings (l : list Interaction) : list SensorReading.data :=
  concat (map inserted_reading l).

(** The requests that reach the database (not storage, clock or console). *)
Definition is_database_request (r : Request) : bool :=
  match r with
  | Select _ _ _ _ _ | Insert _ _ | InsertSingle _ _ | Update _ _ _ | UpdateSingle _ _ _ => true
  | _ => false
  end.

Definition database_requests (l : list Interaction) : list Request :=
  List.filter is_database_request (map req l).

(** The errors of the storage uploads that failed. *)
Definition failed_upload (i : Interaction) : list JsError :=
  match i with
  | {| req := StorageUpload _ _ _ _ _; rep := Failure error |} => [error]
  | _ => []
  end.

Definition failed_uploads (l : list Interaction) : list JsError :=
  concat (map failed_upload l).

(** The public URLs handed out, and the errors written with
    [console.error] under the given message. *)
Definition public_url (i : Interaction) : list string :=
  match i with
  | {| req := StorageGetPublicUrl _ _; rep := url |} => [url]
  | _ => []
  end.

Definition public_urls (l : list Interaction) : list string :=
  concat (map public_url l).

Definition logged_error (message : string) (i : Interaction) : list JsError :=
  match req i with
  | console_error m error => if String.eqb m message then [error] else []
  | _ => []
  end.

Definition logged_errors (message : string) (l : list Interaction) : list JsError :=
  concat (map (logged_error message) l).

(** The answers [Math.random()] gave. *)
Definition random_draw (i : Interaction) : list Q :=
  match i with
  | {| req := Math_random; rep := x |} => [x]
  | _ => []
  end.

Definition random_draws (l : list Interaction) : list Q :=
  concat (map random_draw l).

(** ** What an update does to an alert row *)

(** The backend applies the object given to [update] column by column:
    a column the object names takes the object's value, every other
    column keeps its own. *)
Definition patched_bool (patch : gmap string Value) (key : string) (old : bool) : bool :=
  match patch !! key with
  | Some (VBool b) => b
  | _ => old
  end.

Definition patched_string (patch : gmap string Value) (key : string) (old : option string)
  : option string :=
  match patch !! key with
  | Some (VString s) => Some s
  | _ => old
  end.

Definition update_alert (patch : gmap string Value) (a : Alert.data) : Alert.data :=
  {| Alert.type := Alert.type a;
     Alert.title := Alert.title a;
     Alert.description := Alert.description a;
     Alert.source := Alert.source a;
     Alert.timestamp := Alert.timestamp a;
     Alert.acknowledged := patched_bool patch "acknowledged" (Alert.acknowledged a);
     Alert.resolved := patched_bool patch "resolved" (Alert.resolved a);
     Alert.acknowledged_by := patched_string patch "acknowledged_by" (Alert.acknowledged_by a);
     Alert.acknowledged_at := patched_string patch "acknowledged_at" (Alert.acknowledged_at a);
     Alert.resolved_by := patched_string patch "resolved_by" (Alert.resolved_by a);
     Alert.resolved_at := patched_string patch "resolved_at" (Alert.resolved_at a);
     Alert.sensor_id := Alert.sensor_id a;
     Alert.threshold_value := Alert.threshold_value a;
     Alert.current_value := Alert.current_value a;
     Alert.location := Alert.location a;
     Alert.severity_score := Alert.severity_score a |}.

(** ** A scripted environment, for the worked examples *)

Module Demo.

(** A stateless environment: the clock, the random source and the rows
    of the health select are fixed, and [failing] picks the database and
    storage requests that come back with an error. *)
Record Script := {
  now : Z;
  iso : string;
  random : Q;
  health_rows : list HealthRow;
  failing : Request -> bool
}.

Definition blank_alert : Alert.data :=
  {| Alert.type := "info"; Alert.title := ""; Alert.description := ""; Alert.source := "";
     Alert.timestamp := ""; Alert.acknowledged := false; Alert.resolved := false;
     Alert.acknowledged_by := None; Alert.acknowledged_at := None;
     Alert.resolved_by := None; Alert.resolved_at := None; Alert.sensor_id := None;
     Alert.threshold_value := None; Alert.current_value := None;
     Alert.location := None; Alert.severity_score := None |}.

Definition blank_complaint : Complaint.insert :=
  {| Complaint.complaint :=
       {| Complaint.description := ""; Complaint.location := ""; Complaint.priority := "low";
          Complaint.status := "pending"; Complaint.submitted_by := "";
          Complaint.photo_urls := None; Complaint.gps_coordinates := None;
          Complaint.gps_accuracy := None; Complaint.resolved_at := None;
          Complaint.assigned_to := None; Complaint.resolution_notes := None;
          Complaint.category := None |};
     Complaint.submitted_at := "" |}.

Definition blank_task : MaintenanceTask.data :=
  {| MaintenanceTask.task := ""; MaintenanceTask.description := "";
     MaintenanceTask.priority := "low"; MaintenanceTask.status := "pending";
     MaintenanceTask.due_date := ""; MaintenanceTask.assigned_to := "";
     MaintenanceTask.completed_at := None; MaintenanceTask.location := "";
     MaintenanceTask.estimated_duration := None; MaintenanceTask.actual_duration := None;
     MaintenanceTask.cost := None; MaintenanceTask.notes := None;
     MaintenanceTask.photo_urls := None |}.

Definition blank_reading : SensorReading.data :=
  {| SensorReading.sensor_id := ""; SensorReading.sensor_type := "flow";
     SensorReading.value := 0; SensorReading.unit := ""; SensorReading.location := "";
     SensorReading.timestamp := ""; SensorReading.status := "normal";
     SensorReading.device_id := None; SensorReading.battery_level := None;
     SensorReading.signal_strength := None |}.

(** The row stored for an inserted object: the object under the id "1". *)
Definition stored (t : Table) : NewRow t -> Row t :=
  match t with
  | sensor_readings => fun x => {| SensorReading.id := "1"; SensorReading.fields := x |}
  | complaints => fun x => {| Complaint.id := "1"; Complaint.row := x |}
  | maintenance_tasks => fun x => {| MaintenanceTask.id := "1"; MaintenanceTask.fields := x |}
  | alerts => fun x => {| Alert.id := "1"; Alert.fields := x |}
  end.

(** The row an update answers with: a blank row (for alerts, patched). *)
Definition updated (t : Table) (patch : gmap string Value) : Row t :=
  match t with
  | sensor_readings => stored sensor_readings blank_reading
  | complaints => stored complaints blank_complaint
  | maintenance_tasks => stored maintenance_tasks blank_task
  | alerts => stored alerts (update_alert patch blank_alert)
  end.

Definition selected (sc : Script) (t : Table) (c : Columns) : list (Selected t c) :=
  match c with
  | sensor_type_status_timestamp => health_rows sc
  | _ => []
  end.

Definition denied : JsError := PostgrestError "permission denied" "42501".
Definition no_row : JsError := PostgrestError "JSON object requested, multiple (or no) rows returned" "PGRST116".
Definition upload_failed : JsError := StorageError "upload failed".

Definition answer (sc : Script) (r : Request) : Reply r :=
  match r with
  | Select t c _ _ _ =>
      if failing sc r then Failure denied else Success (selected sc t c)
  | Insert t rows =>
      if failing sc r then Failure denied else Success (map (stored t) rows)
  | InsertSingle t rows =>
      if failing sc r then Failure denied else
      match rows with
      | [x] => Success (stored t x)
      | _ => Failure no_row
      end
  | Update t patch _ =>
      if failing sc r then Failure denied else Success [updated t patch]
  | UpdateSingle t patch _ =>
      if failing sc r then Failure denied else Success (updated t patch)
  | StorageUpload _ path _ _ _ =>
      if failing sc r then Failure upload_failed else Success path
  | StorageGetPublicUrl bucket path => "https://storage.example/" +:+ bucket +:+ "/" +:+ path
  | ChannelSubscribe channel _ _ _ => RealtimeChannel channel
  | Date_now => now sc
  | Date_toISOString _ => iso sc
  | Math_random => random sc
  | console_warn _ => tt
  | console_error _ _ => tt
  end.

Definition environment (sc : Script) : Environment unit := fun r s => (answer sc r, s).

(** A script in which nothing fails. *)
Definition healthy : Script :=
  {| now := 1737469800000;
     iso := "2025-01-21T14:30:00.000Z";
     random := 0.5;
     health_rows := [];
     failing := fun _ => false |}.

End Demo.

(** ** Vocabulary of the properties *)

(** The first reading of a given sensor type. *)
Definition first_of_type (k : string) (data : list HealthRow) : option HealthRow :=
  head (filter (fun r => sensor_type r = k) data).

(** The select awaited by [getSystemHealth]. *)
Definition health_select : Request :=
  Select sensor_readings sensor_type_status_timestamp []
    {| column := "timestamp"; ascending := false |} (Some 100%nat).

(** A run that only wrote one warning to the console and returned [a]. *)
Definition warns_and_returns {St A} (r : Run St A) (message : string) (a : A) : Prop :=
  outcome r = Returned a /\ map req (log r) = [console_warn message].

(** A run that threw "Supabase not configured" before any request. *)
Definition throws_not_configured {St A} (r : Run St A) : Prop :=
  outcome r = Thrown (Error "Supabase not configured") /\ log r = [].

Definition mock_data_warning : string := "Supabase not configured, returning mock data".

(** The interaction in which request [r] was answered with [x]. *)
Definition asked (r : Request) (x : Reply r) : Interaction := {| req := r; rep := x |}.

(** The outcome of code that throws the error of a response, or else
    returns [f] of its data. *)
Definition handed_on {A B} (f : A -> B) (response : Response A) : Outcome B :=
  match response with
  | Failure error => Thrown error
  | Success data => Returned (f data)
  end.

(** The run made requests that did not reach the database, then the
    database request [call], answered with [response], and ended as
    [handed_on f response]. *)
Abbreviation hands_on r call f :=
  (exists prefix response,
      log r = prefix ++ [asked call response] /\
      database_requests prefix = [] /\
      outcome r = handed_on f response).


(** The variation computed from a random number. *)
Definition variation_of (random : Q) : Q := ((random - 0.5) * 2)%Q.



Definition upload_failure_message : string := "Failed to upload photo:".

(** What a stretch of the log says about uploads: no database request,
    every failed upload logged, and [n] uploads in all, each either
    failed or given a public URL. *)
Definition uploads_only (n : nat) (l : list Interaction) : Prop :=
  database_requests l = [] /\
  logged_errors upload_failure_message l = failed_uploads l /\
  (length (public_urls l) + length (failed_uploads l) = n)%nat.

(** ** Further vocabulary *)

(** The states [App] can be in after exactly [n] ticks of its timer. *)
Inductive after_ticks : nat -> App.SensorData -> Prop :=
| after_ticks_0 : after_ticks 0 App.initialSensorData
| after_ticks_S n d prev :
    after_ticks n prev -> App.valid d -> after_ticks (S n) (App.tick d prev).

(** The status of the metric card with the given label. *)
Definition card_status (label : string) (metrics : list Dashboard.Metric) : option string :=
  Dashboard.status <$> List.find (fun m => String.eqb (Dashboard.label m) label) metrics.

(** The field of the hook's sensor data in which readings of a sensor
    type are shown. *)
Definition sensor_field (sensor_type : string) : option (App.SensorData -> Q) :=
  if String.eqb sensor_type "flow" then Some App.waterFlow
  else if String.eqb sensor_type "pressure" then Some App.pressure
  else if String.eqb sensor_type "quality" then Some App.quality
  else if String.eqb sensor_type "temperature" then Some App.temperature
  else if String.eqb sensor_type "ph" then Some App.ph
  else if String.eqb sensor_type "turbidity" then Some App.turbidity
  else None.

Definition reading_type (reading : SensorReading.t) : string :=
  SensorReading.sensor_type (SensorReading.fields reading).

Definition reading_value (reading : SensorReading.t) : Q :=
  SensorReading.value (SensorReading.fields reading).

(** The last reading of a given sensor type in a list. *)
Definition last_of_type (k : string) (readings : list SensorReading.t) : option SensorReading.t :=
  last (filter (fun reading => reading_type reading = k) readings).

(** Whether a string has a dot. *)
Fixpoint has_dot (s : string) : bool :=
  match s with
  | EmptyString => false
  | String c s' => Ascii.eqb c "."%char || has_dot s'
  end.

(** The bucket and path of each storage upload. *)
Definition upload_path (i : Interaction) : list (string * string) :=
  match req i with
  | StorageUpload bucket path _ _ _ => [(bucket, path)]
  | _ => []
  end.

Definition upload_paths (l : list Interaction) : list (string * string) :=
  concat (map upload_path l).

(** [uploads_only] for any message: no database request, every failed
    upload logged under [message], and [n] uploads in all. *)
Definition uploads_logged (message : string) (n : nat) (l : list Interaction) : Prop :=
  database_requests l = [] /\
  logged_errors message l = failed_uploads l /\
  (length (public_urls l) + length (failed_uploads l) = n)%nat.

(** The errors of the single-row inserts that failed. *)
Definition failed_insert (i : Interaction) : list JsError :=
  match i with
  | {| req := InsertSingle _ _; rep := Failure error |} => [error]
  | _ => []
  end.

Definition failed_inserts (l : list Interaction) : list JsError :=
  concat (map failed_insert l).

(** The reading one round of [simulateSensorData] inserts, given the
    answers of the random source and the clock. *)
Definition simulated_reading (sensor : Guarded.SensorSpec.t)
    (random : Q) (timestamp : string) (battery signal : Q) : SensorReading.data :=
  let value := (Guarded.SensorSpec.baseValue sensor + variation_of random)%Q in
  {| SensorReading.sensor_id := Guarded.toUpperCase (Guarded.SensorSpec.type sensor) +:+ "_001";
     SensorReading.sensor_type := Guarded.SensorSpec.type sensor;
     SensorReading.value := Qmax 0 value;
     SensorReading.unit := Guarded.SensorSpec.unit sensor;
     SensorReading.location := Guarded.SensorSpec.location sensor;
     SensorReading.timestamp := timestamp;
     SensorReading.status :=
       if Qltb value (Guarded.SensorSpec.baseValue sensor * 0.8)%Q then "warning" else "normal";
     SensorReading.device_id := None;
     SensorReading.battery_level := Some (Qfloor (battery * 20) + 80)%Z;
     SensorReading.signal_strength := Some (Qfloor (signal * 30) + 70)%Z |}.

(** [reading] was inserted for [sensor] from answers found in [draws]. *)
Definition inserted_for (draws : list Q) (sensor : Guarded.SensorSpec.t)
    (reading : SensorReading.data) : Prop :=
  exists random timestamp battery signal,
    random ∈ draws /\ battery ∈ draws /\ signal ∈ draws /\
    reading = simulated_reading sensor random timestamp battery signal.


(** ** Inputs of the worked examples *)




(** A backend on which the upload of "blurred.jpg" fails and, if asked
    so, the update of a complaint is denied. *)
Definition flaky (deny_update : bool) : Environment unit :=
  Demo.environment
    {| Demo.now := Demo.now Demo.healthy;
       Demo.iso := Demo.iso Demo.healthy;
       Demo.random := Demo.random Demo.healthy;
       Demo.health_rows := [];
       Demo.failing := fun r =>
         match r with
         | StorageUpload _ _ file _ _ => String.eqb (name file) "blurred.jpg"
         | UpdateSingle complaints _ _ => deny_update
         | _ => false
         end |}.

Definition demo_client : Guarded.SupabaseClient :=
  {| Guarded.supabaseUrl := "https://jalrakshak.supabase.co";
     Guarded.supabaseAnonKey := "anon-key" |}.

Definition blurred : File := {| name := "blurred.jpg"; content := [] |}.
Definition sharp : File := {| name := "sharp.jpg"; content := [] |}.

Definition leak_report : Complaint.data := Complaint.complaint Demo.blank_complaint.

Definition low_draws : App.Draws :=
  {| App.r_waterFlow := 0; App.r_pressure := 0; App.r_quality := 0;
     App.r_temperature := 0; App.r_ph := 0; App.r_turbidity := 0 |}.

(** Sensor data with a pressure of exactly 3 bar, and with a pressure
    below it. *)
Definition pressure_at_threshold : AlertSystem.SensorData :=
  {| AlertSystem.waterFlow := Num 45.2; AlertSystem.pressure := Num 3;
     AlertSystem.quality := Num 95; AlertSystem.temperature := Num 24.5;
     AlertSystem.ph := Num 7.2; AlertSystem.turbidity := Num 0.8;
     AlertSystem.solarPumpStatus := "active" |}.

Definition low_pressure : AlertSystem.SensorData :=
  {| AlertSystem.waterFlow := Num 45.2; AlertSystem.pressure := Num 2.5;
     AlertSystem.quality := Num 95; AlertSystem.temperature := Num 24.5;
     AlertSystem.ph := Num 7.2; AlertSystem.turbidity := Num 0.8;
     AlertSystem.solarPumpStatus := "active" |}.

(** The list the effect generates from [low_pressure] at a given time. *)
Definition alerts_at (now : Z) : list AlertSystem.Alert :=
  AlertSystem.generateAlerts (fun _ _ => "2.5") now "21/01/2025, 14:30:00" low_pressure.

(** A reading of the given type and value, taken at the given time. *)
Definition reading_of (sensor_type : string) (value : Q) (timestamp : string) : SensorReading.t :=
  {| SensorReading.id := timestamp;
     SensorReading.fields :=
       {| SensorReading.sensor_id := Guarded.toUpperCase sensor_type +:+ "_001";
          SensorReading.sensor_type := sensor_type;
          SensorReading.value := value;
          SensorReading.unit := "";
          SensorReading.location := "Main Distribution";
          SensorReading.timestamp := timestamp;
          SensorReading.status := "normal";
          SensorReading.device_id := None;
          SensorReading.battery_level := None;
          SensorReading.signal_strength := None |} |}.

(** A backend on which every insert is denied. *)
Definition read_only : Environment unit :=
  Demo.environment
    {| Demo.now := Demo.now Demo.healthy;
       Demo.iso := Demo.iso Demo.healthy;
       Demo.random := Demo.random Demo.healthy;
       Demo.health_rows := [];
       Demo.failing := fun r =>
         match r with
         | InsertSingle _ _ => true
         | _ => false
         end |}.

(** * Properties *)

(** ** Numbers *)

Lemma Qltb_lt (x y : Q) : Qltb x y = true <-> (x < y)%Q.
Proof.
  unfold Qltb. destruct (Qlt_le_dec x y) as [Hlt | Hle]; split; intros H; try done.
  exfalso. apply (Qlt_not_le _ _ H Hle).
Qed.

Lemma Qltb_ge (x y : Q) : Qltb x y = false <-> (y <= x)%Q.
Proof.
  unfold Qltb. destruct (Qlt_le_dec x y) as [Hlt | Hle]; split; intros H; try done.
  exfalso. apply (Qlt_not_le _ _ Hlt H).
Qed.

Lemma js_lt_Num (a b : Q) : js_lt (Num a) (Num b) = true <-> (a < b)%Q.
Proof. apply Qltb_lt. Qed.

(** ** AlertSystem.tsx *)

Module AlertSystemFacts.
Import AlertSystem.

Lemma shows_kind ty ttl alerts : shows ty ttl alerts <-> (ty, ttl) ∈ map kind alerts.
Proof.
  unfold shows. rewrite list_elem_of_fmap. split.
  - intros (a & Hin & <- & <-). by exists a.
  - intros (a & Heq & Hin). exists a. unfold kind in Heq. by simplify_eq.
Qed.

(** The kinds generated, one optional entry per threshold, then the
    three static alerts. *)
Lemma generateAlerts_kinds toFixed now locale sd :
  map kind (generateAlerts toFixed now locale sd) =
    (if js_lt (pressure sd) (Num 3.0) then [(critical, "Low System Pressure Detected")] else []) ++
    (if js_lt (waterFlow sd) (Num 35) then [(warning, "Low Water Flow Rate")] else []) ++
    (if js_lt (quality sd) (Num 90) then [(warning, "Water Quality Below Standard")] else []) ++
    (if js_lt (ph sd) (Num 6.5) || js_lt (Num 8.5) (ph sd) then [(warning, "pH Level Out of Range")] else []) ++
    map kind staticAlerts.
Proof.
  unfold generateAlerts, newAlerts, push.
  destruct (js_lt (pressure sd) (Num 3.0)), (js_lt (waterFlow sd) (Num 35)), (js_lt (quality sd) (Num 90)),
    (js_lt (ph sd) (Num 6.5) || js_lt (Num 8.5) (ph sd)); reflexivity.
Qed.

Lemma elem_of_optional {A} (b : bool) (x y : A) (l : list A) :
  y ∈ (if b then [x] else []) ++ l <-> (b = true /\ y = x) \/ y ∈ l.
Proof.
  destruct b; simpl.
  - rewrite elem_of_cons. split; intros [H | H]; auto. left. by destruct H.
  - split; [auto | intros [[H _] | H]; [discriminate | done]].
Qed.


(** Each threshold alert is shown exactly under its condition. *)
Lemma generateAlerts_shows toFixed now locale (sd : SensorData) :
  let generated := generateAlerts toFixed now locale sd in
  (shows critical "Low System Pressure Detected" generated <-> js_lt (pressure sd) (Num 3.0) = true) /\
  (shows warning "Low Water Flow Rate" generated <-> js_lt (waterFlow sd) (Num 35) = true) /\
  (shows warning "Water Quality Below Standard" generated <-> js_lt (quality sd) (Num 90) = true) /\
  (shows warning "pH Level Out of Range" generated <-> (js_lt (ph sd) (Num 6.5) = true \/ js_lt (Num 8.5) (ph sd) = true)).
Proof.
  intros generated. subst generated.
  rewrite !shows_kind, generateAlerts_kinds.
  rewrite <- orb_true_iff.
  rewrite !elem_of_optional. simpl. rewrite !elem_of_cons, !elem_of_nil.
  repeat split; intuition discriminate.
Qed.

(** Nothing else is generated besides the static alerts. *)
Lemma generateAlerts_origin toFixed now locale (sd : SensorData) (a : Alert) :
  a ∈ generateAlerts toFixed now locale sd -> kind a ∈ threshold_alerts \/ a ∈ staticAlerts.
Proof.
  unfold generateAlerts. rewrite elem_of_app. intros [Hnew | Hstatic]; [left | by right].
  revert Hnew. unfold newAlerts, push, threshold_alerts.
  destruct (js_lt (pressure sd) (Num 3.0)), (js_lt (waterFlow sd) (Num 35)), (js_lt (quality sd) (Num 90)),
    (js_lt (ph sd) (Num 6.5) || js_lt (Num 8.5) (ph sd)); simpl; intros Hnew;
    repeat (apply elem_of_cons in Hnew as [-> | Hnew]);
    try (by apply elem_of_nil in Hnew); unfold kind; simpl;
    rewrite !elem_of_cons; tauto.
Qed.

Lemma generateAlerts_titles_NoDup toFixed now locale (sd : SensorData) :
  NoDup (map title (generateAlerts toFixed now locale sd)).
Proof.
  replace (map title (generateAlerts toFixed now locale sd))
    with (map snd (map kind (generateAlerts toFixed now locale sd)))
    by (rewrite map_map; reflexivity).
  rewrite generateAlerts_kinds.
  destruct (js_lt (pressure sd) (Num 3.0)), (js_lt (waterFlow sd) (Num 35)), (js_lt (quality sd) (Num 90)),
    (js_lt (ph sd) (Num 6.5) || js_lt (Num 8.5) (ph sd)); simpl;
    repeat (apply NoDup_cons; split;
            [rewrite ?not_elem_of_cons; repeat split; try done; apply not_elem_of_nil |]);
    apply NoDup_nil_2.
Qed.

(** Two evaluations: readings below three thresholds, and readings that
    are all NaN. *)
Example generated_titles_low_readings :
  map title
    (generateAlerts (fun _ _ => "?") 1737469800000 "21/01/2025, 14:30:00"
       {| waterFlow := Num 30; pressure := Num 2.5; quality := Num 95;
          temperature := Num 24; ph := Num 9.1; turbidity := Num 0.8;
          solarPumpStatus := "active" |})
  = ["Low System Pressure Detected"; "Low Water Flow Rate"; "pH Level Out of Range";
     "Pipeline Leak Detected"; "Scheduled Maintenance Reminder"; "Unusual Consumption Pattern"].
Proof. reflexivity. Qed.

Example generated_titles_NaN :
  map title
    (generateAlerts (fun _ _ => "?") 1737469800000 "21/01/2025, 14:30:00"
       {| waterFlow := NaN; pressure := NaN; quality := NaN;
          temperature := NaN; ph := NaN; turbidity := NaN;
          solarPumpStatus := "active" |})
  = ["Pipeline Leak Detected"; "Scheduled Maintenance Reminder"; "Unusual Consumption Pattern"].
Proof. reflexivity. Qed.

(** C1.  Whatever the sensor data (NaN and the infinities included), the
    list the effect generates shows a critical "Low System Pressure
    Detected" alert exactly when pressure < 3.0, a warning "Low Water
    Flow Rate" exactly when waterFlow < 35, a warning "Water Quality
    Below Standard" exactly when quality < 90, and a warning "pH Level
    Out of Range" exactly when ph < 6.5 or ph > 8.5, each comparison as
    JavaScript evaluates it.  Every generated alert is one of these four
    or one of the three static alerts, and no title occurs twice. *)
Theorem threshold_alerts_exact toFixed now locale (sd : SensorData) :
  let generated := generateAlerts toFixed now locale sd in
  (shows critical "Low System Pressure Detected" generated
     <-> js_lt (pressure sd) (Num 3.0) = true) /\
  (shows warning "Low Water Flow Rate" generated
     <-> js_lt (waterFlow sd) (Num 35) = true) /\
  (shows warning "Water Quality Below Standard" generated
     <-> js_lt (quality sd) (Num 90) = true) /\
  (shows warning "pH Level Out of Range" generated
     <-> js_lt (ph sd) (Num 6.5) = true \/ js_lt (Num 8.5) (ph sd) = true) /\
  (forall a, a ∈ generated -> kind a ∈ threshold_alerts \/ a ∈ staticAlerts) /\
  NoDup (map title generated).
Proof.
  intros generated.
  destruct (generateAlerts_shows toFixed now locale sd) as (Hp & Hf & Hq & Hph).
  repeat split; try apply Hp; try apply Hf; try apply Hq; try apply Hph.
  - apply generateAlerts_origin.
  - apply generateAlerts_titles_NoDup.
Qed.

(** The two handlers change one alert at a time, by position. *)
Lemma acknowledgeAlert_lookup alerts alertId i :
  acknowledgeAlert alerts alertId !! i =
    (fun a => if String.eqb (id a) alertId then with_acknowledged a else a) <$> alerts !! i.
Proof. unfold acknowledgeAlert. apply list_lookup_fmap. Qed.

Lemma resolveAlert_lookup alerts alertId i :
  resolveAlert alerts alertId !! i =
    (fun a => if String.eqb (id a) alertId then with_resolved_acknowledged a else a) <$> alerts !! i.
Proof. unfold resolveAlert. apply list_lookup_fmap. Qed.

(** C10.  The click handler [acknowledgeAlert] keeps the length and the
    order of the list: the alert at each position stays as it is when
    its id differs from the given one, and otherwise has [acknowledged]
    set to true; in both cases its type, title, description, timestamp,
    source, resolved flag and actions (and its id) are unchanged. *)
Theorem acknowledgeAlert_frame (alerts : list Alert) (alertId : string) :
  length (acknowledgeAlert alerts alertId) = length alerts /\
  forall i a, alerts !! i = Some a ->
    exists a', acknowledgeAlert alerts alertId !! i = Some a' /\
      (id a <> alertId -> a' = a) /\
      (id a = alertId -> acknowledged a' = true) /\
      id a' = id a /\ type a' = type a /\ title a' = title a /\
      description a' = description a /\ timestamp a' = timestamp a /\
      source a' = source a /\ resolved a' = resolved a /\ actions a' = actions a.
Proof.
  split.
  - unfold acknowledgeAlert. apply length_map.
  - intros i a Hi. rewrite acknowledgeAlert_lookup, Hi. simpl.
    destruct (String.eqb_spec (id a) alertId) as [Heq | Hne].
    + exists (with_acknowledged a). repeat split; try reflexivity. intros Hne. by destruct Hne.
    + exists a. repeat split; try reflexivity. intros Heq. by destruct Hne.
Qed.

(** *** "Resolved implies acknowledged" in the component *)








End AlertSystemFacts.

(** ** App.tsx *)

Module AppFacts.
Import App.

Lemma clamp_bounds (lo hi x : Q) :
  (lo <= hi)%Q -> (lo <= Qmax lo (Qmin hi x) /\ Qmax lo (Qmin hi x) <= hi)%Q.
Proof.
  intros Hle. split.
  - apply Q.le_max_l.
  - apply Q.max_lub; [exact Hle | apply Q.le_min_l].
Qed.

Lemma initial_in_bounds : in_bounds initialSensorData.
Proof. unfold in_bounds, initialSensorData; simpl. lra. Qed.

(** One tick lands within the bounds, from any state and for any draws. *)
Lemma tick_in_bounds d prev : in_bounds (tick d prev).
Proof.
  unfold in_bounds, tick; simpl. repeat split.
  - apply Q.le_max_l.
  - apply Q.le_max_l.
  - apply clamp_bounds. lra.
  - apply clamp_bounds. lra.
  - apply clamp_bounds. lra.
  - apply clamp_bounds. lra.
Qed.

Lemma reachable_in_bounds s : reachable s -> in_bounds s.
Proof. induction 1; [apply initial_in_bounds | apply tick_in_bounds]. Qed.

(** C9.  In every state the 3-second timer can reach from the initial
    sensor data, pressure >= 0, turbidity >= 0, 85 <= quality <= 100 and
    6.5 <= ph <= 8.5; so the pH alert condition (ph < 6.5 or ph > 8.5),
    as [AlertSystem] evaluates it, is false there, and the alert list
    generated from such a state shows no "pH Level Out of Range" alert. *)
Theorem simulation_in_bounds (s : SensorData) :
  reachable s ->
  in_bounds s /\
  ~ (ph s < 6.5 \/ 8.5 < ph s)%Q /\
  js_lt (Num (ph s)) (Num 6.5) || js_lt (Num 8.5) (Num (ph s)) = false /\
  forall toFixed now locale,
    ~ AlertSystem.shows AlertSystem.warning "pH Level Out of Range"
        (AlertSystem.generateAlerts toFixed now locale (props s)).
Proof.
  intros Hreach.
  assert (Hb : in_bounds s) by by apply reachable_in_bounds.
  assert (Hph : ~ (ph s < 6.5 \/ 8.5 < ph s)%Q).
  { destruct Hb as (_ & _ & _ & Hlo & Hhi). intros [H | H]; lra. }
  assert (Hjs : js_lt (Num (ph s)) (Num 6.5) || js_lt (Num 8.5) (Num (ph s)) = false).
  { apply not_true_is_false. rewrite orb_true_iff, !js_lt_Num. exact Hph. }
  split; [exact Hb |]. split; [exact Hph |]. split; [exact Hjs |].
  intros toFixed now locale Hshows.
  destruct (AlertSystemFacts.generateAlerts_shows toFixed now locale (props s))
    as (_ & _ & _ & Hiff).
  apply Hiff in Hshows. cbn [props AlertSystem.ph] in Hshows.
  apply orb_true_iff in Hshows. congruence.
Qed.

End AppFacts.

(** ** getSystemHealth: the per-type reduction *)

Lemma healthMap_step_present healthMap reading :
  is_Some (healthMap !! sensor_type reading) -> healthMap_step healthMap reading = healthMap.
Proof. intros H. unfold healthMap_step. by rewrite decide_True. Qed.

Lemma healthMap_step_lookup healthMap reading k :
  healthMap_step healthMap reading !! k =
    match healthMap !! k with
    | Some s => Some s
    | None => if decide (sensor_type reading = k) then Some (status reading) else None
    end.
Proof.
  unfold healthMap_step. destruct (decide (is_Some (healthMap !! sensor_type reading))) as [Hin | Hout].
  - destruct (healthMap !! k) eqn:Hk; [done |].
    destruct (decide (sensor_type reading = k)) as [Heq | _]; [subst k | done].
    rewrite Hk in Hin. by destruct Hin.
  - destruct (decide (sensor_type reading = k)) as [Heq | Hne]; [subst k |].
    + rewrite lookup_insert_eq. apply eq_None_not_Some in Hout. by rewrite Hout.
    + rewrite lookup_insert_ne by done. by destruct (healthMap !! k).
Qed.

Lemma foldl_healthMap_lookup data healthMap k :
  foldl healthMap_step healthMap data !! k =
    match healthMap !! k with
    | Some s => Some s
    | None => status <$> first_of_type k data
    end.
Proof.
  revert healthMap. induction data as [| r data IH]; intros healthMap; simpl.
  - by destruct (healthMap !! k).
  - rewrite IH, healthMap_step_lookup. unfold first_of_type. rewrite filter_cons.
    destruct (healthMap !! k); [done |].
    destruct (decide (sensor_type r = k)); done.
Qed.

Lemma healthMap_of_lookup data k :
  healthMap_of data !! k = status <$> first_of_type k data.
Proof. unfold healthMap_of. by rewrite foldl_healthMap_lookup, lookup_empty. Qed.

Lemma first_of_type_Some k data :
  is_Some (first_of_type k data) <-> k ∈ map sensor_type data.
Proof.
  unfold first_of_type. rewrite list_elem_of_fmap. split.
  - intros [r Hr]. apply head_Some_elem_of in Hr. apply list_elem_of_filter in Hr as [Hk Hin].
    by exists r.
  - intros (r & -> & Hin).
    assert (Hf : r ∈ filter (fun r' => sensor_type r' = sensor_type r) data)
      by (apply list_elem_of_filter; done).
    destruct (filter (fun r' => sensor_type r' = sensor_type r) data); [by apply elem_of_nil in Hf |].
    by eexists.
Qed.

(** In a list sorted newest first, the first reading of a type is at
    least as recent as every other reading of that type. *)
Lemma first_of_type_newest (older_eq : string -> string -> Prop) k data r :
  StronglySorted (fun a b => older_eq (timestamp b) (timestamp a)) data ->
  first_of_type k data = Some r ->
  forall r', r' ∈ data -> sensor_type r' = k -> r' = r \/ older_eq (timestamp r') (timestamp r).
Proof.
  unfold first_of_type. induction 1 as [| a data Hsorted IH Hall]; intros Hhead r' Hin Hk.
  - by apply elem_of_nil in Hin.
  - rewrite filter_cons in Hhead. destruct (decide (sensor_type a = k)) as [Ha | Ha].
    + simpl in Hhead. injection Hhead as ->.
      apply elem_of_cons in Hin as [-> | Hin]; [by left | right].
      rewrite Forall_forall in Hall. by apply Hall.
    + apply elem_of_cons in Hin as [-> | Hin]; [done |]. by apply IH.
Qed.

Example healthMap_of_mixed_readings :
  healthMap_of
    [ {| sensor_type := "flow"; status := "warning"; timestamp := "2025-01-21T14:30:00+00:00" |};
      {| sensor_type := "ph"; status := "normal"; timestamp := "2025-01-21T14:20:00+00:00" |};
      {| sensor_type := "flow"; status := "normal"; timestamp := "2025-01-21T14:10:00+00:00" |} ]
  = <["ph" := "normal"]> {[ "flow" := "warning" ]}.
Proof. reflexivity. Qed.

(** C6.  For every list of readings the backend returns, the object
    [getSystemHealth] builds maps each sensor type to the status of the
    first reading of that type, has exactly the types occurring in the
    list as keys, and a reading whose type already has an entry leaves
    the map as it is.  When the list is ordered newest first, that first
    reading is the most recent one of its type.  Both revisions of
    [getSystemHealth] return this object for the data of a successful
    select. *)
Theorem getSystemHealth_latest_status (data : list HealthRow) :
  (forall k, healthMap_of data !! k = status <$> first_of_type k data) /\
  (forall k, is_Some (healthMap_of data !! k) <-> k ∈ map sensor_type data) /\
  (forall healthMap reading,
     is_Some (healthMap !! sensor_type reading) -> healthMap_step healthMap reading = healthMap) /\
  (forall older_eq : string -> string -> Prop,
     StronglySorted (fun a b => older_eq (timestamp b) (timestamp a)) data ->
     forall k r, first_of_type k data = Some r ->
     forall r', r' ∈ data -> sensor_type r' = k ->
       r' = r \/ older_eq (timestamp r') (timestamp r)) /\
  (forall St (env : Environment St) s,
     (env health_select s).1 = Success data ->
     outcome (run env Plain.getSystemHealth s) = Returned (healthMap_of data) /\
     forall client,
       outcome (run env (Guarded.getSystemHealth (Some client)) s) = Returned (healthMap_of data)).
Proof.
  split; [| split; [| split; [| split]]].
  - apply healthMap_of_lookup.
  - intros k. rewrite healthMap_of_lookup, <- first_of_type_Some.
    destruct (first_of_type k data); simpl; split; intros [x Hx]; try done; by eexists.
  - apply healthMap_step_present.
  - intros older_eq Hsorted k r Hfirst r' Hin Hk.
    by apply (first_of_type_newest older_eq k data r).
  - intros St env s. unfold health_select, Plain.getSystemHealth, Guarded.getSystemHealth.
    cbn [run mbind Async_bind bind await outcome].
    destruct (env _ s) as [response s']. simpl. by intros ->.
Qed.

(** ** The unconfigured client *)

(** C8.  With [supabase] null, the seven read operations return an empty
    result (an empty array, or an empty object for [getSystemHealth])
    after one console warning and without any backend request,
    [subscribeTo] returns the no-op subscription, and the eight write
    operations throw [Error('Supabase not configured')] before any
    request, whatever their arguments and whatever the environment. *)
Theorem unconfigured_client {St Callback} (env : Environment St) (s : St) :
  let supabase : option Guarded.SupabaseClient := None in
  (* reads *)
  warns_and_returns (run env (Guarded.getLatestSensorReadings supabase) s) mock_data_warning [] /\
  (forall sensorType,
     warns_and_returns (run env (Guarded.getSensorReadingsByType supabase sensorType) s)
       mock_data_warning []) /\
  warns_and_returns (run env (Guarded.getComplaints supabase) s) mock_data_warning [] /\
  warns_and_returns (run env (Guarded.getMaintenanceTasks supabase) s) mock_data_warning [] /\
  warns_and_returns (run env (Guarded.getAlerts supabase) s) mock_data_warning [] /\
  (forall days,
     warns_and_returns (run env (Guarded.getConsumptionAnalytics supabase days) s)
       mock_data_warning []) /\
  warns_and_returns (run env (Guarded.getSystemHealth supabase) s) mock_data_warning ∅ /\
  (* subscriptions *)
  (forall table (callback : Callback),
     warns_and_returns (run env (Guarded.subscribeTo supabase table callback) s)
       "Supabase not configured, real-time subscriptions disabled" NoopSubscription) /\
  (* writes *)
  (forall reading, throws_not_configured (run env (Guarded.insertSensorReading supabase reading) s)) /\
  (forall complaint photos,
     throws_not_configured (run env (Guarded.submitComplaint supabase complaint photos) s)) /\
  (forall id status assignedTo resolutionNotes,
     throws_not_configured
       (run env (Guarded.updateComplaintStatus supabase id status assignedTo resolutionNotes) s)) /\
  (forall task, throws_not_configured (run env (Guarded.createMaintenanceTask supabase task) s)) /\
  (forall id notes photos,
     throws_not_configured (run env (Guarded.completeMaintenanceTask supabase id notes photos) s)) /\
  (forall alert, throws_not_configured (run env (Guarded.createAlert supabase alert) s)) /\
  (forall id userId, throws_not_configured (run env (Guarded.acknowledgeAlert supabase id userId) s)) /\
  (forall id userId, throws_not_configured (run env (Guarded.resolveAlert supabase id userId) s)).
Proof.
  intros supabase. subst supabase.
  unfold warns_and_returns, throws_not_configured.
  repeat split; intros; reflexivity.
Qed.

(** ** The plain revision: every operation hands on its backend call *)

Lemma handed_on_Thrown {A B} (f : A -> B) (response : Response A) (e : JsError) :
  handed_on f response = Thrown e <-> response = Failure e.
Proof. destruct response; simpl; split; intros H; by simplify_eq. Qed.

Ltac run_code :=
  cbn [run mbind mret Async_bind Async_ret bind await new_Date_toISOString outcome log final].

Section PlainWrappers.
Context {St : Type} (env : Environment St) (s : St).




End PlainWrappers.



(** ** updateComplaintStatus: the update object *)

Lemma truthy_Some (o : option string) (a : string) :
  truthy o = Some a <-> o = Some a /\ a <> "".
Proof.
  unfold truthy. destruct o as [x |]; [| split; [done | by intros [? _]]].
  destruct (String.eqb_spec x "") as [-> | Hne]; split.
  - done.
  - intros [H Ha]. by simplify_eq.
  - intros H. by simplify_eq.
  - intros [H _]. by simplify_eq.
Qed.

Lemma truthy_is_Some (o : option string) :
  is_Some (truthy o) <-> exists a, o = Some a /\ a <> "".
Proof.
  split.
  - intros [a Ha]. exists a. by apply truthy_Some.
  - intros (a & Ha). exists a. by apply truthy_Some.
Qed.

(** What the update object holds, for any environment. *)
Lemma Plain_updateData_run {St} (env : Environment St) (s : St)
    (id st : string) (assignedTo : option string) :
  exists updateData,
    outcome (run env (Plain.updateComplaintStatus_updateData st assignedTo) s)
      = Returned updateData /\
    database_requests (log (run env (Plain.updateComplaintStatus id st assignedTo) s))
      = [Update complaints updateData [eq_ "id" id]] /\
    updateData !! "status" = Some (VString st) /\
    (is_Some (updateData !! "resolved_at") <-> st = "resolved") /\
    updateData !! "assigned_to" = VString <$> truthy assignedTo.
Proof.
  unfold Plain.updateComplaintStatus, Plain.updateComplaintStatus_updateData.
  destruct (String.eqb_spec st "resolved") as [Hres | Hres]; run_code.
  - destruct (env Date_now s) as [now s1]. cbn [fst snd].
    destruct (env (Date_toISOString now) s1) as [resolved_at s2]. cbn [fst snd].
    eexists. split; [reflexivity |]. split.
    { destruct (env _ s2) as [response s3]. cbn [fst snd]. by destruct response. }
    destruct (truthy assignedTo); simplify_map_eq; repeat split; try done; by eexists.
  - eexists. split; [reflexivity |]. split.
    { destruct (env _ s) as [response s1]. cbn [fst snd]. by destruct response. }
    destruct (truthy assignedTo); simplify_map_eq; repeat split; try done; by intros [? ?].
Qed.

Lemma Guarded_updateData_run {St} (env : Environment St) (s : St) client
    (id st : string) (assignedTo resolutionNotes : option string) :
  exists updateData,
    outcome (run env (Guarded.updateComplaintStatus_updateData st assignedTo resolutionNotes) s)
      = Returned updateData /\
    database_requests
      (log (run env (Guarded.updateComplaintStatus (Some client) id st assignedTo resolutionNotes) s))
      = [UpdateSingle complaints updateData [eq_ "id" id]] /\
    updateData !! "status" = Some (VString st) /\
    (is_Some (updateData !! "resolved_at") <-> st = "resolved") /\
    updateData !! "assigned_to" = VString <$> truthy assignedTo /\
    updateData !! "resolution_notes" = VString <$> truthy resolutionNotes.
Proof.
  unfold Guarded.updateComplaintStatus, Guarded.updateComplaintStatus_updateData.
  destruct (String.eqb_spec st "resolved") as [Hres | Hres]; run_code.
  - destruct (env Date_now s) as [now s1]. cbn [fst snd].
    destruct (env (Date_toISOString now) s1) as [resolved_at s2]. cbn [fst snd].
    eexists. split; [reflexivity |]. split.
    { destruct (env _ s2) as [response s3]. cbn [fst snd]. by destruct response. }
    destruct (truthy assignedTo), (truthy resolutionNotes);
      simplify_map_eq; repeat split; try done; by eexists.
  - eexists. split; [reflexivity |]. split.
    { destruct (env _ s) as [response s1]. cbn [fst snd]. by destruct response. }
    destruct (truthy assignedTo), (truthy resolutionNotes);
      simplify_map_eq; repeat split; try done; by intros [? ?].
Qed.

(** C4 (as amended).  In both revisions the object [updateComplaintStatus]
    sends to [update] always holds the status, holds [resolved_at]
    exactly when the status is 'resolved', and holds [assigned_to]
    exactly when [assignedTo] is a non-empty string, then with that
    string as its value. *)
Theorem updateComplaintStatus_updateData_fields {St} (env : Environment St) (s : St)
    (id st : string) (assignedTo resolutionNotes : option string) :
  (exists updateData,
     database_requests (log (run env (Plain.updateComplaintStatus id st assignedTo) s))
       = [Update complaints updateData [eq_ "id" id]] /\
     updateData !! "status" = Some (VString st) /\
     (is_Some (updateData !! "resolved_at") <-> st = "resolved") /\
     (is_Some (updateData !! "assigned_to") <-> exists a, assignedTo = Some a /\ a <> "") /\
     (forall a, updateData !! "assigned_to" = Some (VString a) <-> assignedTo = Some a /\ a <> "")) /\
  (forall client,
   exists updateData,
     database_requests
       (log (run env (Guarded.updateComplaintStatus (Some client) id st assignedTo resolutionNotes) s))
       = [UpdateSingle complaints updateData [eq_ "id" id]] /\
     updateData !! "status" = Some (VString st) /\
     (is_Some (updateData !! "resolved_at") <-> st = "resolved") /\
     (is_Some (updateData !! "assigned_to") <-> exists a, assignedTo = Some a /\ a <> "") /\
     (forall a, updateData !! "assigned_to" = Some (VString a) <-> assignedTo = Some a /\ a <> "")).
Proof.
  split.
  - destruct (Plain_updateData_run env s id st assignedTo)
      as (updateData & _ & Hsent & Hstatus & Hresolved & Hassigned).
    exists updateData.
    split; [exact Hsent | split; [exact Hstatus | split; [exact Hresolved | split]]].
    + rewrite Hassigned, <- truthy_is_Some. apply fmap_is_Some.
    + intros a. rewrite Hassigned, <- truthy_Some.
      destruct (truthy assignedTo); simpl; split; intros H; by simplify_eq.
  - intros client.
    destruct (Guarded_updateData_run env s client id st assignedTo resolutionNotes)
      as (updateData & _ & Hsent & Hstatus & Hresolved & Hassigned & _).
    exists updateData.
    split; [exact Hsent | split; [exact Hstatus | split; [exact Hresolved | split]]].
    + rewrite Hassigned, <- truthy_is_Some. apply fmap_is_Some.
    + intros a. rewrite Hassigned, <- truthy_Some.
      destruct (truthy assignedTo); simpl; split; intros H; by simplify_eq.
Qed.

(** C4, the claim as stated fails: called with the empty string as
    [assignedTo], an argument that is provided, the operation sends an
    update object without [assigned_to]. *)
Lemma empty_assignee_is_not_written :
  exists updateData,
    database_requests
      (log (run (Demo.environment Demo.healthy)
              (Plain.updateComplaintStatus "c-17" "in-progress" (Some "")) tt))
      = [Update complaints updateData [eq_ "id" "c-17"]] /\
    updateData = {[ "status" := VString "in-progress" ]} /\
    updateData !! "assigned_to" = None.
Proof. eexists. split; [reflexivity |]. split; reflexivity. Qed.

(** ** Resolved implies acknowledged *)









(** ** Running sequenced code *)

Lemma run_bind {St A B} (env : Environment St) (p : Async A) (f : A -> Async B) (s : St) :
  run env (p ≫= f) s =
    match outcome (run env p s) with
    | Returned a =>
        let r2 := run env (f a) (final (run env p s)) in
        {| outcome := outcome r2; final := final r2; log := log (run env p s) ++ log r2 |}
    | Thrown e =>
        {| outcome := Thrown e; final := final (run env p s); log := log (run env p s) |}
    end.
Proof.
  unfold mbind, Async_bind. revert s. induction p as [a | e | r k IH]; intros s; simpl.
  - by destruct (run env (f a) s).
  - reflexivity.
  - rewrite IH. by destruct (outcome (run env (k (env r s).1) (env r s).2)).
Qed.

Lemma inserted_readings_app l1 l2 :
  inserted_readings (l1 ++ l2) = inserted_readings l1 ++ inserted_readings l2.
Proof. unfold inserted_readings. by rewrite map_app, concat_app. Qed.

Lemma random_draws_app l1 l2 : random_draws (l1 ++ l2) = random_draws l1 ++ random_draws l2.
Proof. unfold random_draws. by rewrite map_app, concat_app. Qed.

(** ** simulateSensorData *)






(** One invocation on a backend where nothing fails and every random
    number is 0.5: four readings at their base values. *)
Example simulateSensorData_at_base_values :
  map (fun reading => (SensorReading.sensor_id reading, SensorReading.sensor_type reading,
                       Qred (SensorReading.value reading), SensorReading.status reading))
    (inserted_readings
       (log (run (Demo.environment Demo.healthy)
               (Guarded.simulateSensorData (Some demo_client)) tt)))
  = [("FLOW_001", "flow", 45%Q, "normal");
     ("PRESSURE_001", "pressure", (19 # 5)%Q, "normal");
     ("QUALITY_001", "quality", 95%Q, "normal");
     ("TEMPERATURE_001", "temperature", 24%Q, "normal")].
Proof. reflexivity. Qed.


(** ** submitComplaint: failed photo uploads *)

Lemma run_try_catch {St A} (env : Environment St) (p : Async A) (handler : JsError -> Async A)
    (s : St) :
  run env (try_catch p handler) s =
    match outcome (run env p s) with
    | Returned a => run env p s
    | Thrown e =>
        let r2 := run env (handler e) (final (run env p s)) in
        {| outcome := outcome r2; final := final r2; log := log (run env p s) ++ log r2 |}
    end.
Proof.
  revert s. induction p as [a | e | r k IH]; intros s; simpl.
  - reflexivity.
  - by destruct (run env (handler e) s).
  - rewrite IH. destruct (outcome (run env (k (env r s).1) (env r s).2)) eqn:Hout; simpl.
    + by rewrite Hout.
    + reflexivity.
Qed.

Lemma database_requests_app l1 l2 :
  database_requests (l1 ++ l2) = database_requests l1 ++ database_requests l2.
Proof. unfold database_requests. by rewrite map_app, List.filter_app. Qed.

Lemma failed_uploads_app l1 l2 : failed_uploads (l1 ++ l2) = failed_uploads l1 ++ failed_uploads l2.
Proof. unfold failed_uploads. by rewrite map_app, concat_app. Qed.

Lemma public_urls_app l1 l2 : public_urls (l1 ++ l2) = public_urls l1 ++ public_urls l2.
Proof. unfold public_urls. by rewrite map_app, concat_app. Qed.

Lemma logged_errors_app message l1 l2 :
  logged_errors message (l1 ++ l2) = logged_errors message l1 ++ logged_errors message l2.
Proof. unfold logged_errors. by rewrite map_app, concat_app. Qed.

Lemma uploads_only_app n1 n2 l1 l2 :
  uploads_only n1 l1 -> uploads_only n2 l2 -> uploads_only (n1 + n2) (l1 ++ l2).
Proof.
  intros (Hd1 & Hl1 & Hn1) (Hd2 & Hl2 & Hn2). unfold uploads_only.
  rewrite database_requests_app, logged_errors_app, failed_uploads_app, public_urls_app,
    Hd1, Hd2, Hl1, Hl2, !length_app.
  repeat split; lia.
Qed.

(** One round of the upload loop never throws. *)
Lemma upload_round_run {St} (env : Environment St) (s : St) client photo complaintId photoUrls :
  let r := run env
             (try_catch
                (photoUrl ← Guarded.uploadComplaintPhoto (Some client) photo complaintId;
                 Return (push photoUrls photoUrl))
                (fun error =>
                   _ ← await (console_error "Failed to upload photo:" error);
                   Return photoUrls)) s in
  outcome r = Returned (photoUrls ++ public_urls (log r)) /\ uploads_only 1 (log r).
Proof.
  unfold Guarded.uploadComplaintPhoto, uploads_only, push.
  cbn [mbind mret Async_bind Async_ret bind await try_catch]. run_code.
  destruct (env Date_now s) as [now s1]. cbn [fst snd].
  match goal with |- context [env (StorageUpload ?b ?p ?f ?c ?u) s1] =>
    destruct (env (StorageUpload b p f c u) s1) as [response s2] end.
  cbn [fst snd]. destruct response as [data | error]; cbn.
  - destruct (env _ s2) as [url s3]. by cbn.
  - by rewrite app_nil_r.
Qed.

(** The upload loop returns the URLs it collected, in order. *)
Lemma upload_photos_run {St} (env : Environment St) client complaintId photos photoUrls (s : St) :
  let r := run env
             (for_of_with photos photoUrls (fun photo photoUrls =>
                try_catch
                  (photoUrl ← Guarded.uploadComplaintPhoto (Some client) photo complaintId;
                   Return (push photoUrls photoUrl))
                  (fun error =>
                     _ ← await (console_error "Failed to upload photo:" error);
                     Return photoUrls))) s in
  outcome r = Returned (photoUrls ++ public_urls (log r)) /\ uploads_only (length photos) (log r).
Proof.
  revert photoUrls s. induction photos as [| photo photos IH]; intros photoUrls s; cbn [for_of_with].
  - simpl. rewrite app_nil_r. by repeat split.
  - rewrite run_bind.
    destruct (upload_round_run env s client photo complaintId photoUrls) as [Hret Honly].
    rewrite Hret. cbn [outcome log final].
    match goal with |- context [run env (for_of_with photos ?acc ?body) ?s'] =>
      destruct (IH acc s') as [IHret IHonly] end.
    split.
    + rewrite IHret, public_urls_app. f_equal. by rewrite app_assoc.
    + by apply (uploads_only_app 1 (length photos)).
Qed.

(** C2 (as amended).  With a configured client and a non-empty photo
    list, [submitComplaint] first inserts the complaint and throws at
    once if that fails.  Otherwise it tries every photo: a failed upload
    is caught and logged with [console.error] and contributes no URL, and
    no request reaches the database meanwhile, so the inserted row is
    neither deleted nor rolled back.  If no photo was uploaded the
    function returns the inserted complaint and makes no further
    request.  If some were, it sends one update setting [photo_urls] to
    the URLs of the uploaded photos, and returns the updated complaint,
    or throws the error of that update. *)
Theorem submitComplaint_photo_failures {St} (env : Environment St) (s : St)
    (client : Guarded.SupabaseClient) (complaint : Complaint.data)
    (photo : File) (photos : list File) :
  let r := run env (Guarded.submitComplaint (Some client) complaint (Some (photo :: photos))) s in
  exists now submitted_at response rest,
    log r =
      asked Date_now now :: asked (Date_toISOString now) submitted_at ::
      asked (InsertSingle complaints
               [ {| Complaint.complaint := complaint;
                    Complaint.submitted_at := submitted_at |} ]) response :: rest /\
    match response with
    | Failure complaintError => rest = [] /\ outcome r = Thrown complaintError
    | Success complaintData =>
        exists uploads update,
          rest = uploads ++ update /\
          uploads_only (S (length photos)) uploads /\
          match public_urls uploads with
          | [] => update = [] /\ outcome r = Returned complaintData
          | (_ :: _) as photoUrls =>
              exists updated,
                update = [asked (UpdateSingle complaints
                                   {[ "photo_urls" := VStrings photoUrls ]}
                                   [eq_ "id" (Complaint.id complaintData)]) updated] /\
                outcome r = handed_on (fun updatedData => updatedData) updated
          end
    end.
Proof.
  unfold Guarded.submitComplaint, Guarded.upload_photos. run_code.
  destruct (env Date_now s) as [now s1]. cbn [fst snd].
  destruct (env (Date_toISOString now) s1) as [submitted_at s2]. cbn [fst snd].
  exists now, submitted_at.
  destruct (env (InsertSingle complaints _) s2) as [response s3]. cbn [fst snd].
  exists response. destruct response as [complaintData | complaintError]; [| by eexists].
  eexists. split; [reflexivity |].
  fold (@mbind Async _). rewrite (run_bind env).
  match goal with |- context [run env (for_of_with ?l ?acc ?body) s3] =>
    set (uploading := run env (for_of_with l acc body) s3);
    assert (Hup : outcome uploading = Returned (acc ++ public_urls (log uploading)) /\
                  uploads_only (length l) (log uploading))
      by exact (upload_photos_run env client (Complaint.id complaintData) l acc s3)
  end.
  destruct Hup as [Hret Honly].
  cbn [length] in Honly. rewrite Hret. cbn [app outcome log final].
  exists (log uploading).
  destruct (public_urls (log uploading)) as [| photoUrl photoUrls].
  - exists []. split; [reflexivity |]. split; [exact Honly |]. split; reflexivity.
  - run_code. destruct (env _ (final uploading)) as [updated s4]. cbn [fst snd].
    exists [asked _ updated]. split; [by destruct updated |]. split; [exact Honly |].
    exists updated. by destruct updated.
Qed.

(** C2, the claim as stated fails: the insert succeeds, the upload of
    the first of two photos fails and is logged, the second is uploaded,
    the update that stores its URL is denied, and [submitComplaint]
    throws that error instead of returning the complaint. *)
Lemma submitComplaint_throws_after_failed_upload :
  let r := run (flaky true)
             (Guarded.submitComplaint (Some demo_client) leak_report (Some [blurred; sharp])) tt in
  log r !! 2%nat =
    Some (asked (InsertSingle complaints
                   [ {| Complaint.complaint := leak_report;
                        Complaint.submitted_at := Demo.iso Demo.healthy |} ])
            (Success {| Complaint.id := "1";
                        Complaint.row := {| Complaint.complaint := leak_report;
                                            Complaint.submitted_at := Demo.iso Demo.healthy |} |})) /\
  failed_uploads (log r) = [Demo.upload_failed] /\
  logged_errors upload_failure_message (log r) = [Demo.upload_failed] /\
  length (public_urls (log r)) = 1%nat /\
  outcome r = Thrown Demo.denied.
Proof. repeat apply conj; reflexivity. Qed.

(** On the same backend with the update allowed, and with the failing
    photo alone: the complaint is returned either way. *)
Example submitComplaint_returns_after_failed_upload :
  outcome (run (flaky false)
             (Guarded.submitComplaint (Some demo_client) leak_report (Some [blurred; sharp])) tt)
    = Returned (Demo.updated complaints ∅) /\
  outcome (run (flaky false)
             (Guarded.submitComplaint (Some demo_client) leak_report (Some [blurred])) tt)
    = Returned {| Complaint.id := "1";
                  Complaint.row := {| Complaint.complaint := leak_report;
                                      Complaint.submitted_at := Demo.iso Demo.healthy |} |} /\
  database_requests
    (log (run (flaky false)
            (Guarded.submitComplaint (Some demo_client) leak_report (Some [blurred])) tt))
    = [InsertSingle complaints
         [ {| Complaint.complaint := leak_report;
              Complaint.submitted_at := Demo.iso Demo.healthy |} ]].
Proof. repeat apply conj; reflexivity. Qed.

(** The witnesses of the theorems above that have hypotheses. *)

Lemma low_draws_valid : App.valid low_draws.
Proof. unfold App.valid, App.is_random; simpl. repeat split; reflexivity || discriminate. Defined.

Lemma simulation_in_bounds_witness :
  let s := App.tick low_draws App.initialSensorData in
  App.reachable s /\
  App.in_bounds s /\
  ~ (App.ph s < 6.5 \/ 8.5 < App.ph s)%Q /\
  js_lt (Num (App.ph s)) (Num 6.5) || js_lt (Num 8.5) (Num (App.ph s)) = false /\
  forall toFixed now locale,
    ~ AlertSystem.shows AlertSystem.warning "pH Level Out of Range"
        (AlertSystem.generateAlerts toFixed now locale (App.props s)).
Proof.
  assert (H : App.reachable (App.tick low_draws App.initialSensorData))
    by (apply App.reachable_tick; [apply App.reachable_initial | apply low_draws_valid]).
  split; [exact H | exact (AppFacts.simulation_in_bounds _ H)].
Defined.


(** ** AlertSystem.tsx: handlers, counts and ids *)

Module AlertSystemViewFacts.
Import AlertSystem AlertSystemView.

Lemma handlers_keep_ids alerts alertId :
  map id (acknowledgeAlert alerts alertId) = map id alerts /\
  map id (resolveAlert alerts alertId) = map id alerts.
Proof.
  unfold acknowledgeAlert, resolveAlert. rewrite !map_map.
  split; apply map_ext; intros a; by destruct (String.eqb (id a) alertId).
Qed.

(** X1.  The click handler [resolveAlert] keeps the length and the order
    of the list: the alert at each position stays as it is when its id
    differs from the given one, and otherwise has [resolved] and
    [acknowledged] set to true; in both cases its id, type, title,
    description, timestamp, source and actions are unchanged. *)
Theorem resolveAlert_frame (alerts : list Alert) (alertId : string) :
  length (resolveAlert alerts alertId) = length alerts /\
  forall i a, alerts !! i = Some a ->
    exists a', resolveAlert alerts alertId !! i = Some a' /\
      (id a <> alertId -> a' = a) /\
      (id a = alertId -> resolved a' = true /\ acknowledged a' = true) /\
      id a' = id a /\ type a' = type a /\ title a' = title a /\
      description a' = description a /\ timestamp a' = timestamp a /\
      source a' = source a /\ actions a' = actions a.
Proof.
  split.
  - unfold resolveAlert. apply length_map.
  - intros i a Hi. rewrite AlertSystemFacts.resolveAlert_lookup, Hi. simpl.
    destruct (String.eqb_spec (id a) alertId) as [Heq | Hne].
    + exists (with_resolved_acknowledged a).
      split; [reflexivity |]. split; [intros Hne; by destruct Hne |].
      split; [by intros _ |]. by repeat split.
    + exists a. split; [reflexivity |]. split; [done |].
      split; [intros Heq; by destruct Hne |]. by repeat split.
Qed.

(** X2.  How the two click handlers compose: each is idempotent, a
    resolve absorbs an acknowledge of the same id in either order, and
    any two clicks commute. *)
Theorem handlers_compose (alerts : list Alert) (i j : string) :
  acknowledgeAlert (acknowledgeAlert alerts i) i = acknowledgeAlert alerts i /\
  resolveAlert (resolveAlert alerts i) i = resolveAlert alerts i /\
  resolveAlert (acknowledgeAlert alerts i) i = resolveAlert alerts i /\
  acknowledgeAlert (resolveAlert alerts i) i = resolveAlert alerts i /\
  acknowledgeAlert (acknowledgeAlert alerts i) j = acknowledgeAlert (acknowledgeAlert alerts j) i /\
  resolveAlert (resolveAlert alerts i) j = resolveAlert (resolveAlert alerts j) i /\
  resolveAlert (acknowledgeAlert alerts i) j = acknowledgeAlert (resolveAlert alerts j) i.
Proof.
  unfold acknowledgeAlert, resolveAlert. rewrite !map_map.
  repeat apply conj; apply map_ext; intros a;
    destruct (String.eqb (id a) i) eqn:Hi; destruct (String.eqb (id a) j) eqn:Hj;
    cbn [id with_acknowledged with_resolved_acknowledged]; rewrite ?Hi, ?Hj; reflexivity.
Qed.

Lemma handlers_no_match (alerts : list Alert) (alertId : string) :
  alertId ∉ map id alerts ->
  acknowledgeAlert alerts alertId = alerts /\ resolveAlert alerts alertId = alerts.
Proof.
  intros Hnot. unfold acknowledgeAlert, resolveAlert.
  split; rewrite <- (map_id alerts) at 2; apply map_ext_in; intros a Ha;
    destruct (String.eqb_spec (id a) alertId) as [Heq | Hne]; try reflexivity;
    destruct Hnot; rewrite <- Heq; apply list_elem_of_fmap; exists a;
    (split; [reflexivity | by apply list_elem_of_In]).
Qed.

(** X3.  A click for an id that no alert of the list has changes
    nothing. *)
Theorem handlers_unknown_id (alerts : list Alert) (alertId : string) :
  alertId ∉ map id alerts ->
  acknowledgeAlert alerts alertId = alerts /\ resolveAlert alerts alertId = alerts.
Proof. apply handlers_no_match. Qed.

(** The first two characters of an id tell the seven alerts apart. *)
Lemma generateAlerts_ids_NoDup toFixed now locale (sd : SensorData) :
  NoDup (map id (generateAlerts toFixed now locale sd)).
Proof.
  apply (NoDup_fmap_1 (fun s : string => String.substring 0 2 s)).
  rewrite <- list_fmap_compose.
  unfold generateAlerts, newAlerts, push.
  destruct (js_lt (pressure sd) (Num 3.0)), (js_lt (waterFlow sd) (Num 35)), (js_lt (quality sd) (Num 90)),
    (js_lt (ph sd) (Num 6.5) || js_lt (Num 8.5) (ph sd)); simpl;
    repeat (apply NoDup_cons; split;
            [rewrite ?not_elem_of_cons; repeat split; try done; apply not_elem_of_nil |]);
    apply NoDup_nil_2.
Qed.

Lemma reachable_ids_NoDup alerts : reachable alerts -> NoDup (map id alerts).
Proof.
  induction 1 as [| alerts alerts' _ IH Hstep]; [apply NoDup_nil_2 |].
  destruct Hstep as [toFixed now locale sd alerts | alertId alerts | alertId alerts].
  - apply generateAlerts_ids_NoDup.
  - by rewrite (proj1 (handlers_keep_ids alerts alertId)).
  - by rewrite (proj2 (handlers_keep_ids alerts alertId)).
Qed.

Lemma map_one_position {A} (ident : A -> string) (f : A -> A) (l : list A) (i : nat) (a : A) :
  NoDup (map ident l) -> l !! i = Some a ->
  map (fun x => if String.eqb (ident x) (ident a) then f x else x) l = <[i := f a]> l.
Proof.
  intros Hnodup Hi. apply list_eq. intros j.
  rewrite list_lookup_fmap.
  destruct (decide (j = i)) as [-> | Hne].
  - rewrite list_lookup_insert_eq by (by eapply lookup_lt_Some).
    rewrite Hi. simpl. by rewrite String.eqb_refl.
  - rewrite list_lookup_insert_ne by done.
    destruct (l !! j) as [b |] eqn:Hj; [simpl | reflexivity].
    destruct (String.eqb_spec (ident b) (ident a)) as [Heq | _]; [| reflexivity].
    destruct Hne. eapply NoDup_lookup; [exact Hnodup | |].
    + rewrite list_lookup_fmap, Hj. reflexivity.
    + rewrite list_lookup_fmap, Hi. simpl. by rewrite Heq.
Qed.

(** X4.  In every state the component reaches, no two alerts share an
    id, so a click on the card of an alert changes the alert at that one
    position and no other. *)
Theorem reachable_ids_distinct (alerts : list Alert) :
  reachable alerts ->
  NoDup (map id alerts) /\
  forall i a, alerts !! i = Some a ->
    acknowledgeAlert alerts (id a) = <[i := with_acknowledged a]> alerts /\
    resolveAlert alerts (id a) = <[i := with_resolved_acknowledged a]> alerts.
Proof.
  intros Hreach. pose proof (reachable_ids_NoDup alerts Hreach) as Hnodup.
  split; [exact Hnodup |]. intros i a Hi.
  split; by apply map_one_position.
Qed.

(** *** The counts *)

Lemma filter_split {A} (p q : A -> bool) (l : list A) :
  (forall a, p a = true -> q a = false) ->
  (length (List.filter p l) + length (List.filter q l)
   = length (List.filter (fun a => p a || q a) l))%nat.
Proof.
  intros Hpq. induction l as [| a l IH]; [reflexivity |]. simpl.
  destruct (p a) eqn:Hp; simpl.
  - rewrite (Hpq a Hp). simpl. lia.
  - destruct (q a); simpl; lia.
Qed.

Lemma filter_length_ext {A} (p q : A -> bool) (l : list A) :
  (forall a, p a = q a) -> length (List.filter p l) = length (List.filter q l).
Proof. intros H. by rewrite (List.filter_ext p q H). Qed.

Lemma filter_length_all {A} (p : A -> bool) (l : list A) :
  (forall a, p a = true) -> length (List.filter p l) = length l.
Proof.
  intros H. induction l as [| a l IH]; [reflexivity |]. simpl. rewrite H. simpl. by rewrite IH.
Qed.

Lemma filter_length_mono {A} (p q : A -> bool) (l : list A) :
  (forall a, p a = true -> q a = true) ->
  (length (List.filter p l) <= length (List.filter q l))%nat.
Proof.
  intros H. induction l as [| a l IH]; [done |]. simpl.
  destruct (p a) eqn:Hp.
  - rewrite (H a Hp). simpl. lia.
  - destruct (q a); simpl; lia.
Qed.

Lemma type_is_cases a :
  type_is critical a || (type_is warning a || type_is info a) = true.
Proof. unfold type_is. by destruct (type a). Qed.

Lemma filter_sublist {A} (p : A -> bool) (l : list A) : List.filter p l `sublist_of` l.
Proof.
  induction l as [| a l IH]; [constructor |]. simpl.
  destruct (p a); by constructor.
Qed.

(** X5.  The numbers the component shows add up: active and resolved
    alerts make up the list; the three type buttons make up the 'all'
    button; and the critical and warning counts, with the unresolved
    info alerts, make up the active count.  The number on a filter
    button is the number of cards listed under that filter, and the
    cards listed are alerts of the list, in its order. *)
Theorem counts_add_up (alerts : list Alert) :
  (forall filter,
     length (filteredAlerts filter alerts) = filterCount filter alerts /\
     filteredAlerts filter alerts `sublist_of` alerts) /\
  (totalActive alerts + resolvedToday alerts = length alerts)%nat /\
  (filterCount (only critical) alerts + filterCount (only warning) alerts
     + filterCount (only info) alerts = filterCount all alerts)%nat /\
  (criticalCount alerts + warningCount alerts
     + length (List.filter (fun a => type_is info a && negb (resolved a)) alerts)
   = totalActive alerts)%nat /\
  (criticalCount alerts <= filterCount (only critical) alerts)%nat /\
  (warningCount alerts <= filterCount (only warning) alerts)%nat.
Proof.
  split.
  { intros [| ty]; simpl; (split; [reflexivity |]); [reflexivity | apply filter_sublist]. }
  unfold totalActive, resolvedToday, filterCount, criticalCount, warningCount.
  split; [| split; [| split; [| split]]].
  - rewrite filter_split by (intros a; by destruct (resolved a)).
    apply filter_length_all. intros a. by destruct (resolved a).
  - rewrite <- Nat.add_assoc.
    rewrite (filter_split (type_is warning) (type_is info))
      by (intros a; unfold type_is; by destruct (type a)).
    rewrite filter_split by (intros a; unfold type_is; by destruct (type a)).
    apply filter_length_all, type_is_cases.
  - rewrite <- Nat.add_assoc.
    rewrite (filter_split (fun a => type_is warning a && negb (resolved a))
                          (fun a => type_is info a && negb (resolved a)))
      by (intros a; unfold type_is; by destruct (type a), (resolved a)).
    rewrite filter_split by (intros a; unfold type_is; by destruct (type a), (resolved a)).
    apply filter_length_ext. intros a. unfold type_is. by destruct (type a), (resolved a).
  - apply filter_length_mono. intros a. by destruct (type_is critical a).
  - apply filter_length_mono. intros a. by destruct (type_is warning a).
Qed.

Lemma filter_map_length {A} (p : A -> bool) (f : A -> A) (l : list A) :
  (forall a, p (f a) = p a) -> length (List.filter p (map f l)) = length (List.filter p l).
Proof.
  intros H. induction l as [| a l IH]; [reflexivity |]. simpl. rewrite H.
  destruct (p a); simpl; by rewrite IH.
Qed.

Lemma filter_map_length_le {A} (p : A -> bool) (f : A -> A) (l : list A) :
  (forall a, p (f a) = true -> p a = true) ->
  (length (List.filter p (map f l)) <= length (List.filter p l))%nat.
Proof.
  intros H. induction l as [| a l IH]; [done |]. simpl.
  destruct (p (f a)) eqn:Hf.
  - rewrite (H a Hf). simpl. lia.
  - destruct (p a); simpl; lia.
Qed.

(** X6.  An acknowledge changes none of the numbers shown.  A resolve
    changes no filter button, never raises the critical, warning or
    active count, and lowers the active count exactly when the list has
    an unresolved alert of the given id; afterwards an alert of that id
    offers no Acknowledge or Resolve button and lists no actions. *)
Theorem handlers_and_counts (alerts : list Alert) (alertId : string) :
  (criticalCount (acknowledgeAlert alerts alertId) = criticalCount alerts /\
   warningCount (acknowledgeAlert alerts alertId) = warningCount alerts /\
   totalActive (acknowledgeAlert alerts alertId) = totalActive alerts /\
   resolvedToday (acknowledgeAlert alerts alertId) = resolvedToday alerts /\
   forall filterType,
     filterCount filterType (acknowledgeAlert alerts alertId) = filterCount filterType alerts) /\
  (forall filterType,
     filterCount filterType (resolveAlert alerts alertId) = filterCount filterType alerts) /\
  (criticalCount (resolveAlert alerts alertId) <= criticalCount alerts)%nat /\
  (warningCount (resolveAlert alerts alertId) <= warningCount alerts)%nat /\
  (totalActive (resolveAlert alerts alertId) <= totalActive alerts)%nat /\
  ((totalActive (resolveAlert alerts alertId) < totalActive alerts)%nat <->
   exists a, a ∈ alerts /\ id a = alertId /\ resolved a = false) /\
  (forall a, a ∈ resolveAlert alerts alertId -> id a = alertId ->
     offersAcknowledge a = false /\ offersResolve a = false /\ listsActions a = false).
Proof.
  unfold criticalCount, warningCount, totalActive, resolvedToday.
  split; [| split; [| split; [| split; [| split; [| split]]]]].
  - unfold acknowledgeAlert.
    repeat apply conj;
      try (apply filter_map_length; intros a; by destruct (String.eqb (id a) alertId)).
    intros [| ty]; simpl; [apply length_map |].
    apply filter_map_length. intros a. by destruct (String.eqb (id a) alertId).
  - unfold resolveAlert. intros [| ty]; simpl; [apply length_map |].
    apply filter_map_length. intros a. by destruct (String.eqb (id a) alertId).
  - unfold resolveAlert. apply filter_map_length_le. intros a.
    destruct (String.eqb (id a) alertId); [| done]. unfold type_is. simpl.
    rewrite andb_false_r. discriminate.
  - unfold resolveAlert. apply filter_map_length_le. intros a.
    destruct (String.eqb (id a) alertId); [| done]. unfold type_is. simpl.
    rewrite andb_false_r. discriminate.
  - unfold resolveAlert. apply filter_map_length_le. intros a.
    destruct (String.eqb (id a) alertId); [| done]. simpl. discriminate.
  - unfold resolveAlert. induction alerts as [| a l IH]; simpl.
    + split; [lia |]. intros (a & Ha & _). by apply elem_of_nil in Ha.
    + pose proof (filter_map_length_le (fun a => negb (resolved a))
                    (fun alert => if String.eqb (id alert) alertId
                                  then with_resolved_acknowledged alert else alert) l) as Hle.
      assert (Hmono : forall a, negb (resolved (if String.eqb (id a) alertId
                                          then with_resolved_acknowledged a else a)) = true ->
                           negb (resolved a) = true)
        by (intros b; destruct (String.eqb (id b) alertId); [simpl; discriminate | done]).
      specialize (Hle Hmono).
      destruct (String.eqb_spec (id a) alertId) as [Heq | Hne]; simpl.
      * destruct (resolved a) eqn:Hres; simpl.
        -- rewrite IH. split.
           ++ intros (b & Hb & Hid & Hr). exists b. split; [by apply elem_of_cons; right | done].
           ++ intros (b & Hb & Hid & Hr). apply elem_of_cons in Hb as [-> | Hb]; [congruence |].
              by exists b.
        -- split; [| lia]. intros _. exists a. split; [apply elem_of_cons; by left | done].
      * destruct (resolved a) eqn:Hres; simpl.
        -- rewrite IH. split.
           ++ intros (b & Hb & Hid & Hr). exists b. split; [by apply elem_of_cons; right | done].
           ++ intros (b & Hb & Hid & Hr). apply elem_of_cons in Hb as [-> | Hb]; [congruence |].
              by exists b.
        -- rewrite <- Nat.succ_lt_mono, IH. split.
           ++ intros (b & Hb & Hid & Hr). exists b. split; [by apply elem_of_cons; right | done].
           ++ intros (b & Hb & Hid & Hr). apply elem_of_cons in Hb as [-> | Hb]; [congruence |].
              by exists b.
  - intros a Ha Hid. unfold resolveAlert in Ha. apply list_elem_of_fmap in Ha as (b & -> & Hb).
    destruct (String.eqb_spec (id b) alertId) as [Heq | Hne].
    + unfold offersAcknowledge, offersResolve, listsActions. simpl.
      by destruct (actions b) as [[| x l] |].
    + by destruct Hne.
Qed.

Lemma filter_length_push {A} (p : A -> bool) (c : bool) (l : list A) (x : A) :
  length (List.filter p (if c then push l x else l))
  = (length (List.filter p l) + (if c then if p x then 1 else 0 else 0))%nat.
Proof.
  destruct c; [| lia]. unfold push. rewrite List.filter_app, length_app. simpl.
  by destruct (p x).
Qed.

(** X7.  Right after the effect has run, whatever the sensor data: one
    alert counts as resolved, the critical count is 1 or 2 (2 exactly
    when the pressure condition holds), the warning count is the number
    of warning conditions that hold (the static warning is resolved and
    is not counted), and between 2 and 6 alerts are active. *)
Theorem generateAlerts_counts toFixed now locale (sd : SensorData) :
  let generated := generateAlerts toFixed now locale sd in
  resolvedToday generated = 1%nat /\
  criticalCount generated = (1 + (if js_lt (pressure sd) (Num 3.0) then 1 else 0))%nat /\
  warningCount generated =
    ((if js_lt (waterFlow sd) (Num 35) then 1 else 0)
     + (if js_lt (quality sd) (Num 90) then 1 else 0)
     + (if js_lt (ph sd) (Num 6.5) || js_lt (Num 8.5) (ph sd) then 1 else 0))%nat /\
  (2 <= totalActive generated <= 6)%nat /\
  filterCount (only info) generated = 1%nat.
Proof.
  cbv zeta.
  unfold resolvedToday, criticalCount, warningCount, totalActive, filterCount, generateAlerts.
  rewrite !List.filter_app, !length_app. unfold newAlerts. cbv zeta.
  rewrite !filter_length_push.
  cbn [List.filter length staticAlerts type resolved type_is negb andb Nat.add].
  destruct (js_lt (pressure sd) (Num 3.0)), (js_lt (waterFlow sd) (Num 35)), (js_lt (quality sd) (Num 90)),
    (js_lt (ph sd) (Num 6.5) || js_lt (Num 8.5) (ph sd)); vm_compute; repeat split; lia.
Qed.

(** *** A regenerated list *)





End AlertSystemViewFacts.

(** ** App.tsx: how far the simulation drifts *)

Module AppDrift.
Import App.









(** The sixth tick can cross the quality threshold: six ticks whose
    draws are all 0 bring quality to 89, and the quality alert is shown. *)
Example quality_alert_after_six_ticks :
  let s := Nat.iter 6 (tick low_draws) initialSensorData in
  after_ticks 6 s /\ (quality s == 89)%Q /\
  map AlertSystem.title
    (AlertSystem.generateAlerts (fun _ _ => "?") 1737469800000 "21/01/2025, 14:30:00" (props s))
  = ["Water Quality Below Standard"; "Pipeline Leak Detected";
     "Scheduled Maintenance Reminder"; "Unusual Consumption Pattern"].
Proof.
  split; [| split; reflexivity].
  assert (Hvalid : valid low_draws)
    by (unfold valid, is_random; simpl; repeat split; reflexivity || discriminate).
  cbn [Nat.iter]. repeat (apply after_ticks_S; [| exact Hvalid]). apply after_ticks_0.
Qed.

End AppDrift.

(** ** Dashboard.tsx and AlertSystem.tsx on the same sensor data *)

Lemma js_lt_asym (x y : number) : js_lt x y = true -> js_lt y x = false.
Proof.
  destruct x as [a | | |], y as [b | | |]; simpl; try done.
  intros H. apply Qltb_lt in H. apply Qltb_ge. lra.
Qed.

Lemma js_lt_below (x : number) (a b : Q) :
  (a <= b)%Q -> js_lt x (Num a) = true -> js_lt (Num b) x = false.
Proof.
  intros Hab. destruct x as [q | | |]; simpl; try done.
  intros H. apply Qltb_lt in H. apply Qltb_ge. lra.
Qed.

(** X9.  While the sensor hook is loading, the dashboard computes its
    cards from the [sensorData] prop that [AlertSystem] also gets.  On
    the same data, whenever [AlertSystem] shows the low-pressure alert
    the pressure card is 'critical', whenever it shows the low-flow
    alert the flow card is 'warning', and whenever it shows the quality
    alert the quality card is 'warning'; the temperature card is always
    'normal'.  The cards are stricter: the pressure card is 'critical'
    whenever 3 < pressure is false, the flow card 'warning' whenever
    40 < waterFlow is false, the quality card 'warning' whenever
    90 < quality is false. *)
Theorem alert_implies_card_status toFixed now locale toFixed' realTimeSensorData
    (sensorData : AlertSystem.SensorData) :
  let generated := AlertSystem.generateAlerts toFixed now locale sensorData in
  let cards :=
    Dashboard.metrics toFixed' (Dashboard.currentSensorData true sensorData realTimeSensorData) in
  (AlertSystem.shows AlertSystem.critical "Low System Pressure Detected" generated ->
   card_status "System Pressure" cards = Some "critical") /\
  (AlertSystem.shows AlertSystem.warning "Low Water Flow Rate" generated ->
   card_status "Water Flow Rate" cards = Some "warning") /\
  (AlertSystem.shows AlertSystem.warning "Water Quality Below Standard" generated ->
   card_status "Water Quality" cards = Some "warning") /\
  card_status "Temperature" cards = Some "normal" /\
  (card_status "System Pressure" cards = Some "critical"
     <-> js_lt (Num 3) (AlertSystem.pressure sensorData) = false) /\
  (card_status "Water Flow Rate" cards = Some "warning"
     <-> js_lt (Num 40) (AlertSystem.waterFlow sensorData) = false) /\
  (card_status "Water Quality" cards = Some "warning"
     <-> js_lt (Num 90) (AlertSystem.quality sensorData) = false).
Proof.
  intros generated cards.
  destruct (AlertSystemFacts.generateAlerts_shows toFixed now locale sensorData)
    as (Hp & Hf & Hq & _).
  fold generated in Hp, Hf, Hq.
  unfold cards, card_status, Dashboard.metrics, Dashboard.currentSensorData.
  cbn [List.find Dashboard.label Dashboard.status String.eqb Ascii.eqb Bool.eqb fmap option_fmap option_map].
  split; [| split; [| split; [| split; [| split; [| split]]]]].
  - intros H. apply Hp in H. by rewrite (js_lt_below _ 3.0 3 ltac:(lra) H).
  - intros H. apply Hf in H. by rewrite (js_lt_below _ 35 40 ltac:(lra) H).
  - intros H. apply Hq in H. by rewrite (js_lt_below _ 90 90 ltac:(lra) H).
  - reflexivity.
  - destruct (js_lt (Num 3) _); split; intros H; done || by simplify_eq.
  - destruct (js_lt (Num 40) _); split; intros H; done || by simplify_eq.
  - destruct (js_lt (Num 90) _); split; intros H; done || by simplify_eq.
Qed.

(** At exactly 3 bar the pressure card is 'critical' and no pressure
    alert is generated. *)
Example critical_card_without_alert :
  card_status "System Pressure" (Dashboard.metrics (fun _ _ => "?") pressure_at_threshold)
    = Some "critical" /\
  map AlertSystem.title
    (AlertSystem.generateAlerts (fun _ _ => "?") 1737469800000 "21/01/2025, 14:30:00"
       pressure_at_threshold)
  = ["Pipeline Leak Detected"; "Scheduled Maintenance Reminder"; "Unusual Consumption Pattern"].
Proof. split; reflexivity. Qed.

(** ** hooks/useRealTimeData.ts *)

Module HooksFacts.
Import Hooks.

Ltac by_sensor_type t :=
  repeat match goal with
         | |- context [String.eqb t ?c] => destruct (String.eqb_spec t c) as [-> | ?]
         end.

(** One assignment of the [switch], read through a field. *)
Lemma assign_field t v data k field :
  sensor_field k = Some field ->
  field (assign t v data) = if String.eqb t k then v else field data.
Proof.
  unfold sensor_field. intros H.
  repeat match type of H with
         | context [String.eqb k ?c] => destruct (String.eqb_spec k c) as [-> | ?]
         end; simplify_eq; unfold assign; by_sensor_type t; try reflexivity;
    match goal with
    | |- context [String.eqb t ?c] =>
        destruct (String.eqb_spec t c) as [-> | ?]; [congruence | reflexivity]
    end.
Qed.

Lemma assign_unknown t v data : sensor_field t = None -> assign t v data = data.
Proof. unfold sensor_field, assign. by_sensor_type t; simpl; done. Qed.

Lemma assign_solarPumpStatus t v data :
  App.solarPumpStatus (assign t v data) = App.solarPumpStatus data.
Proof. unfold assign. by_sensor_type t; reflexivity. Qed.

Lemma processedData_snoc sensorData readings reading :
  processedData sensorData (readings ++ [reading]) =
    assign (reading_type reading) (reading_value reading) (processedData sensorData readings).
Proof. unfold processedData. by rewrite foldl_app. Qed.

(** X10.  [fetchInitialData] lets every reading of the fetched list
    assign to the field of its sensor type, in list order, so each of
    the six fields ends up with the value of the last reading of its
    type in the list (the list is fetched newest first, so that is the
    oldest such reading), or keeps its value when the list has no
    reading of the type.  Readings of any other type change nothing, and
    the pump status is never assigned. *)
Theorem processedData_last_wins (sensorData : App.SensorData) (readings : list SensorReading.t) :
  (forall k field, sensor_field k = Some field ->
     field (processedData sensorData readings) =
       default (field sensorData) (reading_value <$> last_of_type k readings)) /\
  App.solarPumpStatus (processedData sensorData readings) = App.solarPumpStatus sensorData /\
  (Forall (fun reading => sensor_field (reading_type reading) = None) readings ->
   processedData sensorData readings = sensorData).
Proof.
  split; [| split].
  - intros k field Hk. induction readings as [| reading readings IH] using rev_ind; [reflexivity |].
    rewrite processedData_snoc, (assign_field _ _ _ k field Hk).
    unfold last_of_type in *. rewrite filter_app, filter_cons, filter_nil.
    destruct (String.eqb_spec (reading_type reading) k) as [Heq | Hne].
    + rewrite decide_True by done. by rewrite last_snoc.
    + rewrite decide_False by done. by rewrite app_nil_r.
  - induction readings as [| reading readings IH] using rev_ind; [reflexivity |].
    by rewrite processedData_snoc, assign_solarPumpStatus.
  - induction readings as [| reading readings IH] using rev_ind; [reflexivity |].
    intros Hall. apply Forall_app in Hall as [Hall Hlast]. rewrite Forall_singleton in Hlast.
    rewrite processedData_snoc. rewrite assign_unknown by exact Hlast. by apply IH.
Qed.

(** A newest-first list with two flow readings: the older value is shown. *)
Example processedData_shows_older_reading :
  App.waterFlow
    (processedData initialSensorData
       [reading_of "flow" 44 "2025-01-21T14:30:00+00:00";
        reading_of "flow" 41 "2025-01-21T14:00:00+00:00"])
  = 41%Q.
Proof. reflexivity. Qed.

Lemma object_of_assign t v data :
  sensor_field t <> None ->
  object_of (assign t v data) =
    <[(if String.eqb t "flow" then "waterFlow" else t) := FNumber v]> (object_of data).
Proof.
  unfold sensor_field, assign. by_sensor_type t; try done; intros _; simpl;
    apply map_eq; intros key; unfold object_of;
    repeat (rewrite lookup_insert_eq || (rewrite lookup_insert_ne by done) ||
            match goal with
            | |- context [<[?k1 := _]> _ !! key] =>
                destruct (decide (k1 = key)) as [<- | ?]
            end); reflexivity.
Qed.

(** X11.  The two revisions of the callback on 'sensor_readings' agree
    on the six sensor types, and on events other than INSERT: the state
    of the revision with the [switch], read as an object, is the state
    of the revision with the computed key.  On an INSERT of any other
    sensor type they differ: the [switch] leaves the state as it is,
    the computed key stores the value under the type's own name. *)
Theorem sensorData_updaters_agree (payload : Payload SensorReading.t) (prev : App.SensorData) :
  (sensor_field (reading_type (new payload)) <> None \/ eventType payload <> "INSERT" ->
   object_of (sensorData_updater payload prev) = sensorData_updater_by_key payload (object_of prev)) /\
  (sensor_field (reading_type (new payload)) = None -> eventType payload = "INSERT" ->
   sensorData_updater payload prev = prev /\
   sensorData_updater_by_key payload (object_of prev) !! reading_type (new payload)
     = Some (FNumber (reading_value (new payload)))).
Proof.
  unfold sensorData_updater, sensorData_updater_by_key, reading_type, reading_value. split.
  - intros H. destruct (String.eqb_spec (eventType payload) "INSERT") as [Heq | Hne].
    + destruct H as [H | H]; [| done]. cbn zeta. by apply object_of_assign.
    + reflexivity.
  - intros Hnone ->. cbn [String.eqb Ascii.eqb Bool.eqb]. cbn zeta.
    split; [by apply assign_unknown |].
    destruct (String.eqb_spec (SensorReading.sensor_type (SensorReading.fields (new payload))) "flow")
      as [Heq | Hne].
    + rewrite Heq in Hnone. discriminate.
    + apply lookup_insert_eq.
Qed.

(** A reading whose sensor type is 'solarPumpStatus' replaces the pump
    status by a number in the revision with the computed key. *)
Example computed_key_overwrites_pump_status :
  sensorData_updater_by_key
    {| eventType := "INSERT"; new := reading_of "solarPumpStatus" 1 "2025-01-21T14:30:00+00:00" |}
    (object_of initialSensorData) !! "solarPumpStatus"
  = Some (FNumber 1).
Proof. reflexivity. Qed.

(** *** The row lists of useComplaints and useAlerts *)

Section RowsFacts.
Context {R : Type} (id : R -> string).

(** X12.  The callback of [useComplaints] and [useAlerts] never removes
    a row (a DELETE event changes nothing).  On an UPDATE it keeps the
    ids and their order, every row left with the id of the new row is
    the new row, and every row is the new row or a row held before; an
    event other than INSERT for an id that no row has changes nothing,
    so an update of a row that is not held is dropped.  An INSERT puts
    the new row in front, whether or not its id is already held. *)
Theorem rows_updater_laws (payload : Payload R) (prev : list R) :
  let next := rows_updater id payload prev in
  (length prev <= length next)%nat /\
  (eventType payload = "INSERT" -> next = new payload :: prev) /\
  (eventType payload = "UPDATE" ->
   map id next = map id prev /\
   (forall row, row ∈ next -> id row = id (new payload) -> row = new payload) /\
   (forall row, row ∈ next -> row = new payload \/ row ∈ prev)) /\
  (eventType payload <> "INSERT" -> id (new payload) ∉ map id prev -> next = prev).
Proof.
  cbn zeta. unfold rows_updater.
  destruct (String.eqb_spec (eventType payload) "INSERT") as [Hins | Hnins].
  { rewrite Hins. split; [simpl; lia |]. split; [done |]. split; [discriminate | done]. }
  destruct (String.eqb_spec (eventType payload) "UPDATE") as [Hupd | Hnupd].
  - split; [by rewrite length_map |]. split; [done |]. split.
    + intros _. split; [| split].
      * rewrite map_map. apply map_ext. intros row.
        destruct (String.eqb_spec (id row) (id (new payload))) as [Heq | Hne]; congruence.
      * intros row Hrow Hid. apply list_elem_of_fmap in Hrow as (old & -> & Hold).
        destruct (String.eqb_spec (id old) (id (new payload))) as [Heq | Hne]; congruence.
      * intros row Hrow. apply list_elem_of_fmap in Hrow as (old & -> & Hold).
        destruct (String.eqb (id old) (id (new payload))); auto.
    + intros _ Hnot. rewrite <- (map_id prev) at 2. apply map_ext_in. intros row Hrow.
      destruct (String.eqb_spec (id row) (id (new payload))) as [Heq | Hne]; [| reflexivity].
      destruct Hnot. rewrite <- Heq. apply list_elem_of_fmap. exists row.
      split; [reflexivity | by apply list_elem_of_In].
  - split; [done |]. split; [done |]. split; [done | done].
Qed.
End RowsFacts.

(** *** useSensorMonitoring *)

(** X13.  The reading list of [useSensorMonitoring] holds at most 50
    readings after an INSERT, whatever it held before, and never grows
    beyond 50 once it is within: the new reading comes first, followed
    by the first 49 readings held, and it is then the latest reading of
    its type, while the latest reading of every other type is the one
    among those 49.  [getLatestReading] is the first element of
    [getSensorsByType]. *)
Theorem sensorReadings_window (payload : Payload SensorReading.t) (prev : list SensorReading.t) :
  let next := sensorReadings_updater payload prev in
  ((length prev <= 50)%nat -> (length next <= 50)%nat) /\
  (eventType payload = "INSERT" ->
   (length next <= 50)%nat /\
   next = new payload :: take 49 prev /\
   getLatestReading next (reading_type (new payload)) = Some (new payload) /\
   forall sensorType, sensorType <> reading_type (new payload) ->
     getLatestReading next sensorType = getLatestReading (take 49 prev) sensorType) /\
  (forall sensorReadings sensorType,
     getLatestReading sensorReadings sensorType
       = head (getSensorsByType sensorReadings sensorType)).
Proof.
  cbn zeta. unfold sensorReadings_updater.
  assert (Hlen : (length (new payload :: take 49 prev) <= 50)%nat).
  { simpl. rewrite length_take. lia. }
  split; [| split].
  - intros Hprev. by destruct (String.eqb (eventType payload) "INSERT").
  - intros ->. cbn [String.eqb Ascii.eqb Bool.eqb].
    split; [exact Hlen |]. split; [reflexivity |].
    unfold getLatestReading, reading_type. cbn [List.find]. split.
    + by rewrite String.eqb_refl.
    + intros sensorType Hne.
      destruct (String.eqb_spec (SensorReading.sensor_type (SensorReading.fields (new payload)))
                  sensorType) as [Heq | _]; [by destruct Hne | reflexivity].
  - intros sensorReadings sensorType. unfold getLatestReading, getSensorsByType.
    induction sensorReadings as [| reading l IH]; [reflexivity |]. simpl.
    by destruct (String.eqb _ sensorType).
Qed.

End HooksFacts.

(** ** The guarded revision: photo uploads *)

Lemma has_dot_app s1 s2 : has_dot (s1 +:+ s2) = has_dot s1 || has_dot s2.
Proof.
  induction s1 as [| c s1 IH]; [reflexivity |]. simpl. rewrite IH. by rewrite orb_assoc.
Qed.

Lemma String_app_cons (c : ascii) (s1 s2 : string) : String c s1 +:+ s2 = String c (s1 +:+ s2).
Proof. reflexivity. Qed.

Lemma String_app_assoc (s1 s2 s3 : string) : (s1 +:+ s2) +:+ s3 = s1 +:+ (s2 +:+ s3).
Proof.
  induction s1 as [| c s1 IH]; [reflexivity |]. rewrite !String_app_cons. by rewrite IH.
Qed.

Lemma String_app_nil_r (s : string) : s +:+ "" = s.
Proof. induction s as [| c s IH]; [reflexivity |]. rewrite String_app_cons. by rewrite IH. Qed.

Lemma split_pop_dotless s acc : has_dot s = false -> Guarded.split_pop s acc = acc +:+ s.
Proof.
  revert acc. induction s as [| c s IH]; intros acc; simpl.
  - intros _. by rewrite String_app_nil_r.
  - intros H. apply orb_false_iff in H as [Hc Hs]. rewrite Hc, IH by done.
    by rewrite String_app_assoc.
Qed.

Lemma split_pop_after_dot base ext acc :
  Guarded.split_pop (base +:+ "." +:+ ext) acc = Guarded.split_pop ext "".
Proof.
  revert acc. induction base as [| c base IH]; intros acc; [reflexivity |].
  rewrite String_app_cons. simpl. destruct (Ascii.eqb c "."); apply IH.
Qed.

Lemma split_pop_no_dot s acc : has_dot acc = false -> has_dot (Guarded.split_pop s acc) = false.
Proof.
  revert acc. induction s as [| c s IH]; intros acc Hacc; simpl; [done |].
  destruct (Ascii.eqb c ".") eqn:Hc; apply IH; [done |].
  rewrite has_dot_app, Hacc. simpl. by rewrite Hc.
Qed.

(** X14.  The extension [file.name.split('.').pop()] of a file name is
    what follows its last dot; a name without a dot is its own
    extension, so a photo named "photo" is stored under a path ending in
    ".photo"; and the extension never has a dot. *)
Theorem split_pop_extension :
  (forall base ext, has_dot ext = false -> Guarded.split_pop (base +:+ "." +:+ ext) "" = ext) /\
  (forall s, has_dot s = false -> Guarded.split_pop s "" = s) /\
  (forall s, has_dot (Guarded.split_pop s "") = false) /\
  (forall s, Guarded.split_pop (Guarded.split_pop s "") "" = Guarded.split_pop s "").
Proof.
  split; [| split; [| split]].
  - intros base ext Hext. rewrite split_pop_after_dot. by apply split_pop_dotless.
  - intros s Hs. by apply split_pop_dotless.
  - intros s. by apply split_pop_no_dot.
  - intros s. apply split_pop_dotless. by apply split_pop_no_dot.
Qed.

Lemma upload_paths_app l1 l2 : upload_paths (l1 ++ l2) = upload_paths l1 ++ upload_paths l2.
Proof. unfold upload_paths. by rewrite map_app, concat_app. Qed.

(** X15.  The storage path of a photo depends on the file only through
    its extension: two photos with the same extension, uploaded for the
    same complaint (or task) at the same clock reading, are uploaded to
    the same path of the same bucket, with [upsert] false both times. *)
Theorem upload_path_ignores_file_name {St} (env : Environment St) (s s' : St)
    (client : Guarded.SupabaseClient) (file1 file2 : File) (id : string) :
  Guarded.split_pop (name file1) "" = Guarded.split_pop (name file2) "" ->
  (env Date_now s).1 = (env Date_now s').1 ->
  (exists path,
     upload_paths (log (run env (Guarded.uploadComplaintPhoto (Some client) file1 id) s))
       = [("complaint_photos", path)] /\
     upload_paths (log (run env (Guarded.uploadComplaintPhoto (Some client) file2 id) s'))
       = [("complaint_photos", path)]) /\
  (exists path,
     upload_paths (log (run env (Guarded.uploadMaintenancePhoto (Some client) file1 id) s))
       = [("maintenance_photos", path)] /\
     upload_paths (log (run env (Guarded.uploadMaintenancePhoto (Some client) file2 id) s'))
       = [("maintenance_photos", path)]).
Proof.
  intros Hext Hnow.
  unfold Guarded.uploadComplaintPhoto, Guarded.uploadMaintenancePhoto. run_code.
  rewrite Hext.
  destruct (env Date_now s) as [now s1], (env Date_now s') as [now' s1']. cbn [fst snd] in *.
  subst now'.
  split; eexists; split.
  - destruct (env (StorageUpload _ _ file1 _ _) s1) as [response s2]. cbn [fst snd].
    destruct response; reflexivity.
  - destruct (env (StorageUpload _ _ file2 _ _) s1') as [response s2]. cbn [fst snd].
    destruct response; reflexivity.
  - destruct (env (StorageUpload _ _ file1 _ _) s1) as [response s2]. cbn [fst snd].
    destruct response; reflexivity.
  - destruct (env (StorageUpload _ _ file2 _ _) s1') as [response s2]. cbn [fst snd].
    destruct response; reflexivity.
Qed.

(** ** The guarded revision: completeMaintenanceTask *)

Lemma uploads_logged_app message n1 n2 l1 l2 :
  uploads_logged message n1 l1 -> uploads_logged message n2 l2 ->
  uploads_logged message (n1 + n2) (l1 ++ l2).
Proof.
  intros (Hd1 & Hl1 & Hn1) (Hd2 & Hl2 & Hn2). unfold uploads_logged.
  rewrite database_requests_app, logged_errors_app, failed_uploads_app, public_urls_app,
    Hd1, Hd2, Hl1, Hl2, !length_app.
  split; [done |]. split; [done | lia].
Qed.

(** One round of the maintenance upload loop never throws. *)
Lemma maintenance_round_run {St} (env : Environment St) (s : St) client photo id photoUrls :
  let r := run env
             (try_catch
                (photoUrl ← Guarded.uploadMaintenancePhoto (Some client) photo id;
                 Return (push photoUrls photoUrl))
                (fun error =>
                   _ ← await (console_error "Failed to upload maintenance photo:" error);
                   Return photoUrls)) s in
  outcome r = Returned (photoUrls ++ public_urls (log r)) /\
  uploads_logged "Failed to upload maintenance photo:" 1 (log r).
Proof.
  unfold Guarded.uploadMaintenancePhoto, uploads_logged, push.
  cbn [mbind mret Async_bind Async_ret bind await try_catch]. run_code.
  destruct (env Date_now s) as [now s1]. cbn [fst snd].
  match goal with |- context [env (StorageUpload ?b ?p ?f ?c ?u) s1] =>
    destruct (env (StorageUpload b p f c u) s1) as [response s2] end.
  cbn [fst snd]. destruct response as [data | error]; cbn.
  - destruct (env _ s2) as [url s3]. by cbn.
  - by rewrite app_nil_r.
Qed.

Lemma maintenance_photos_run {St} (env : Environment St) client id photos photoUrls (s : St) :
  let r := run env
             (for_of_with photos photoUrls (fun photo photoUrls =>
                try_catch
                  (photoUrl ← Guarded.uploadMaintenancePhoto (Some client) photo id;
                   Return (push photoUrls photoUrl))
                  (fun error =>
                     _ ← await (console_error "Failed to upload maintenance photo:" error);
                     Return photoUrls))) s in
  outcome r = Returned (photoUrls ++ public_urls (log r)) /\
  uploads_logged "Failed to upload maintenance photo:" (length photos) (log r).
Proof.
  revert photoUrls s. induction photos as [| photo photos IH]; intros photoUrls s; cbn [for_of_with].
  - simpl. rewrite app_nil_r. by repeat split.
  - rewrite run_bind.
    destruct (maintenance_round_run env s client photo id photoUrls) as [Hret Honly].
    rewrite Hret. cbn [outcome log final].
    match goal with |- context [run env (for_of_with photos ?acc ?body) ?s'] =>
      destruct (IH acc s') as [IHret IHonly] end.
    split.
    + rewrite IHret, public_urls_app. f_equal. by rewrite app_assoc.
    + by apply (uploads_logged_app _ 1 (length photos)).
Qed.

Ltac sent_update env s Hkeys :=
  let response := fresh "response" in
  let s' := fresh "s" in
  match goal with
  | |- context [env (UpdateSingle maintenance_tasks ?patch ?filters) s] =>
      destruct (env (UpdateSingle maintenance_tasks patch filters) s) as [response s']
  end;
  cbn [fst snd]; exists response;
  split; [by destruct response |]; split; [done |];
  split; [by simplify_map_eq |]; split; [by simplify_map_eq |];
  split; [by simplify_map_eq |]; split; [by simplify_map_eq |];
  split; [| by destruct response];
  let key := fresh "key" in
  let Hkey := fresh "Hkey" in
  intros key Hkey; destruct (Hkeys key Hkey) as (? & ? & ? & ?); by simplify_map_eq.

(** X16.  With a configured client [completeMaintenanceTask] tries every
    photo first; a failed upload is caught and logged and adds no URL,
    and no request reaches the database meanwhile.  Then, whatever
    happened to the photos, it reads the clock and sends exactly one
    update of the task: status 'completed', [completed_at] the time
    read, [notes] exactly when the notes are a non-empty string, and
    [photo_urls], the URLs of the uploaded photos in order, exactly when
    at least one upload succeeded; no other column.  It returns the
    updated task or throws the error of that update; an upload failure
    never makes it throw. *)
Theorem completeMaintenanceTask_uploads {St} (env : Environment St) (s : St)
    (client : Guarded.SupabaseClient) (id : string) (notes : option string)
    (photos : option (list File)) :
  let r := run env (Guarded.completeMaintenanceTask (Some client) id notes photos) s in
  exists uploads now completed_at updateData response,
    log r = uploads ++
              [asked Date_now now; asked (Date_toISOString now) completed_at;
               asked (UpdateSingle maintenance_tasks updateData [eq_ "id" id]) response] /\
    uploads_logged "Failed to upload maintenance photo:" (length (default [] photos)) uploads /\
    updateData !! "status" = Some (VString "completed") /\
    updateData !! "completed_at" = Some (VString completed_at) /\
    updateData !! "notes" = VString <$> truthy notes /\
    updateData !! "photo_urls" =
      match public_urls uploads with
      | [] => None
      | (_ :: _) as photoUrls => Some (VStrings photoUrls)
      end /\
    (forall key, key ∉ ["status"; "completed_at"; "notes"; "photo_urls"] ->
       updateData !! key = None) /\
    outcome r = handed_on (fun data => data) response.
Proof.
  unfold Guarded.completeMaintenanceTask.
  set (uploading :=
         match photos with
         | Some ((_ :: _) as photos) =>
             for_of_with photos []
               (fun photo photoUrls =>
                  try_catch
                    (photoUrl ← Guarded.uploadMaintenancePhoto (Some client) photo id;
                     Return (push photoUrls photoUrl))
                    (fun error =>
                       _ ← await (console_error "Failed to upload maintenance photo:" error);
                       Return photoUrls))
         | _ => Return []
         end).
  assert (Hup : outcome (run env uploading s) = Returned (public_urls (log (run env uploading s))) /\
                uploads_logged "Failed to upload maintenance photo:"
                  (length (default [] photos)) (log (run env uploading s))).
  { subst uploading. destruct photos as [[| photo photos] |]; try (by repeat split).
    exact (maintenance_photos_run env client id (photo :: photos) [] s). }
  destruct Hup as [Hret Honly].
  cbn zeta. rewrite run_bind, Hret. cbn [outcome log final].
  exists (log (run env uploading s)).
  generalize dependent (run env uploading s). intros up Hret Honly.
  run_code. destruct (env Date_now (final up)) as [now s1]. cbn [fst snd].
  destruct (env (Date_toISOString now) s1) as [completed_at s2]. cbn [fst snd].
  exists now, completed_at.
  assert (Hkeys : forall key : string,
            key ∉ ["status"; "completed_at"; "notes"; "photo_urls"] ->
            key <> "status" /\ key <> "completed_at" /\ key <> "notes" /\ key <> "photo_urls").
  { intros key Hkey. rewrite !not_elem_of_cons in Hkey. tauto. }
  destruct Honly as (Hdb & Hlogged & Hcount).
  unfold uploads_logged.
  destruct (truthy notes), (public_urls (log up)); cbn [fmap option_fmap option_map];
    eexists.
  - sent_update env s2 Hkeys.
  - sent_update env s2 Hkeys.
  - sent_update env s2 Hkeys.
  - sent_update env s2 Hkeys.
Qed.

(** The task is completed although its only photo could not be stored. *)
Example completeMaintenanceTask_completes_without_photo :
  let r := run (flaky false)
             (Guarded.completeMaintenanceTask (Some demo_client) "t-4" (Some "") (Some [blurred])) tt in
  outcome r = Returned (Demo.updated maintenance_tasks ∅) /\
  failed_uploads (log r) = [Demo.upload_failed] /\
  database_requests (log r)
    = [UpdateSingle maintenance_tasks
         (<["completed_at" := VString (Demo.iso Demo.healthy)]> {[ "status" := VString "completed" ]})
         [eq_ "id" "t-4"]].
Proof. repeat apply conj; reflexivity. Qed.

(** ** The guarded revision with a configured client *)


(** ** The guarded revision: what acknowledgeAlert and resolveAlert write *)

(** X18.  In the guarded revision [acknowledgeAlert] reads the clock
    once and [resolveAlert] twice, and each then sends one update.  The
    update of [acknowledgeAlert] holds [acknowledged] and
    [acknowledged_at], and [acknowledged_by] exactly when the user id is
    a non-empty string.  The update of [resolveAlert] holds [resolved],
    [acknowledged], [resolved_at] (the first time read) and
    [acknowledged_at] (the second), and [resolved_by] and
    [acknowledged_by] exactly when the user id is a non-empty string:
    resolving always writes the acknowledgement time anew.  Neither
    update holds any other column. *)
Theorem guarded_alert_update_objects {St} (env : Environment St) (s : St)
    (client : Guarded.SupabaseClient) (id : string) (userId : option string) :
  (exists now acknowledged_at updateData response,
     log (run env (Guarded.acknowledgeAlert (Some client) id userId) s) =
       [asked Date_now now; asked (Date_toISOString now) acknowledged_at;
        asked (UpdateSingle alerts updateData [eq_ "id" id]) response] /\
     updateData !! "acknowledged" = Some (VBool true) /\
     updateData !! "acknowledged_at" = Some (VString acknowledged_at) /\
     updateData !! "acknowledged_by" = VString <$> truthy userId /\
     (forall key, key ∉ ["acknowledged"; "acknowledged_at"; "acknowledged_by"] ->
        updateData !! key = None)) /\
  (exists now1 resolved_at now2 acknowledged_at updateData response,
     log (run env (Guarded.resolveAlert (Some client) id userId) s) =
       [asked Date_now now1; asked (Date_toISOString now1) resolved_at;
        asked Date_now now2; asked (Date_toISOString now2) acknowledged_at;
        asked (UpdateSingle alerts updateData [eq_ "id" id]) response] /\
     updateData !! "resolved" = Some (VBool true) /\
     updateData !! "acknowledged" = Some (VBool true) /\
     updateData !! "resolved_at" = Some (VString resolved_at) /\
     updateData !! "acknowledged_at" = Some (VString acknowledged_at) /\
     updateData !! "resolved_by" = VString <$> truthy userId /\
     updateData !! "acknowledged_by" = VString <$> truthy userId /\
     (forall key,
        key ∉ ["resolved"; "acknowledged"; "resolved_at"; "acknowledged_at";
               "resolved_by"; "acknowledged_by"] ->
        updateData !! key = None)).
Proof.
  split.
  - unfold Guarded.acknowledgeAlert, Guarded.acknowledgeAlert_updateData. run_code.
    destruct (env Date_now s) as [now s1]. cbn [fst snd].
    destruct (env (Date_toISOString now) s1) as [acknowledged_at s2]. cbn [fst snd].
    exists now, acknowledged_at.
    assert (Hkeys : forall key : string,
              key ∉ ["acknowledged"; "acknowledged_at"; "acknowledged_by"] ->
              key <> "acknowledged" /\ key <> "acknowledged_at" /\ key <> "acknowledged_by").
    { intros key Hkey. rewrite !not_elem_of_cons in Hkey. tauto. }
    destruct (truthy userId); run_code; cbn [fmap option_fmap option_map]; eexists.
    + destruct (env (UpdateSingle alerts _ _) s2) as [response s3]. cbn [fst snd].
      exists response. split; [by destruct response |].
      split; [by simplify_map_eq |]. split; [by simplify_map_eq |].
      split; [by simplify_map_eq |].
      intros key Hkey. destruct (Hkeys key Hkey) as (? & ? & ?). by simplify_map_eq.
    + destruct (env (UpdateSingle alerts _ _) s2) as [response s3]. cbn [fst snd].
      exists response. split; [by destruct response |].
      split; [by simplify_map_eq |]. split; [by simplify_map_eq |].
      split; [by simplify_map_eq |].
      intros key Hkey. destruct (Hkeys key Hkey) as (? & ? & ?). by simplify_map_eq.
  - unfold Guarded.resolveAlert, Guarded.resolveAlert_updateData. run_code.
    destruct (env Date_now s) as [now1 s1]. cbn [fst snd].
    destruct (env (Date_toISOString now1) s1) as [resolved_at s2]. cbn [fst snd].
    destruct (env Date_now s2) as [now2 s3]. cbn [fst snd].
    destruct (env (Date_toISOString now2) s3) as [acknowledged_at s4]. cbn [fst snd].
    exists now1, resolved_at, now2, acknowledged_at.
    assert (Hkeys : forall key : string,
              key ∉ ["resolved"; "acknowledged"; "resolved_at"; "acknowledged_at";
                     "resolved_by"; "acknowledged_by"] ->
              key <> "resolved" /\ key <> "acknowledged" /\ key <> "resolved_at" /\
              key <> "acknowledged_at" /\ key <> "resolved_by" /\ key <> "acknowledged_by").
    { intros key Hkey. rewrite !not_elem_of_cons in Hkey. tauto. }
    destruct (truthy userId); run_code; cbn [fmap option_fmap option_map]; eexists.
    + destruct (env (UpdateSingle alerts _ _) s4) as [response s5]. cbn [fst snd].
      exists response. split; [by destruct response |].
      do 6 (split; [by simplify_map_eq |]).
      intros key Hkey. destruct (Hkeys key Hkey) as (? & ? & ? & ? & ? & ?). by simplify_map_eq.
    + destruct (env (UpdateSingle alerts _ _) s4) as [response s5]. cbn [fst snd].
      exists response. split; [by destruct response |].
      do 6 (split; [by simplify_map_eq |]).
      intros key Hkey. destruct (Hkeys key Hkey) as (? & ? & ? & ? & ? & ?). by simplify_map_eq.
Qed.

(** ** simulateSensorData: the readings, and a failing insert *)

Lemma failed_inserts_app l1 l2 : failed_inserts (l1 ++ l2) = failed_inserts l1 ++ failed_inserts l2.
Proof. unfold failed_inserts. by rewrite map_app, concat_app. Qed.

(** One round of the loop, request by request. *)
Lemma simulate_one_log {St} (env : Environment St) (s : St) client sensor :
  let r := run env (Guarded.simulate_one (Some client) sensor) s in
  exists random now timestamp battery signal response,
    log r =
      [asked Math_random random; asked Date_now now; asked (Date_toISOString now) timestamp;
       asked Math_random battery; asked Math_random signal;
       asked (InsertSingle sensor_readings
                [simulated_reading sensor random timestamp battery signal]) response] /\
    outcome r = handed_on (fun _ => tt) response.
Proof.
  unfold Guarded.simulate_one, Guarded.insertSensorReading. run_code.
  destruct (env Math_random s) as [random s1]. cbn [fst snd].
  destruct (env Date_now s1) as [now s2]. cbn [fst snd].
  destruct (env (Date_toISOString now) s2) as [timestamp s3]. cbn [fst snd].
  destruct (env Math_random s3) as [battery s4]. cbn [fst snd].
  destruct (env Math_random s4) as [signal s5]. cbn [fst snd].
  exists random, now, timestamp, battery, signal.
  destruct (env (InsertSingle sensor_readings _) s5) as [response s6]. cbn [fst snd].
  exists response. by destruct response.
Qed.

Lemma inserted_for_weaken draws draws' sensor reading :
  draws ⊆ draws' -> inserted_for draws sensor reading -> inserted_for draws' sensor reading.
Proof.
  intros Hsub (random & timestamp & battery & signal & H1 & H2 & H3 & ->).
  exists random, timestamp, battery, signal. repeat split; try by apply Hsub.
Qed.

(** The loop stops at the first insert that fails; until then it has
    inserted one reading per sensor, in order. *)
Lemma for_of_simulate_log {St} (env : Environment St) client sensors (s : St) :
  let r := run env (for_of sensors (Guarded.simulate_one (Some client))) s in
  exists tried,
    tried `prefix_of` sensors /\
    Forall2 (inserted_for (random_draws (log r))) tried (inserted_readings (log r)) /\
    database_requests (log r) =
      map (fun reading => InsertSingle sensor_readings [reading]) (inserted_readings (log r)) /\
    (forall message, logged_errors message (log r) = []) /\
    ((outcome r = Returned tt /\ tried = sensors /\ failed_inserts (log r) = []) \/
     (exists e before rows,
        outcome r = Thrown e /\ failed_inserts (log r) = [e] /\
        log r = before ++ [asked (InsertSingle sensor_readings rows) (Failure e)])).
Proof.
  revert s. induction sensors as [| sensor sensors IH]; intros s; cbn [for_of].
  - exists []. simpl. split; [done |]. split; [constructor |]. split; [done |].
    split; [done |]. by left.
  - rewrite run_bind.
    destruct (simulate_one_log env s client sensor)
      as (random & now & timestamp & battery & signal & response & Hlog & Hout).
    set (reading := simulated_reading sensor random timestamp battery signal) in *.
    set (round := run env (Guarded.simulate_one (Some client) sensor) s) in *.
    assert (Hfor : inserted_for (random_draws (log round)) sensor reading).
    { exists random, timestamp, battery, signal. rewrite Hlog. cbn.
      rewrite !elem_of_cons. tauto. }
    assert (Hins : inserted_readings (log round) = [reading]) by (by rewrite Hlog).
    assert (Hdb : database_requests (log round) = [InsertSingle sensor_readings [reading]])
      by (by rewrite Hlog).
    assert (Hnolog : forall message, logged_errors message (log round) = [])
      by (intros message; by rewrite Hlog).
    rewrite Hout. destruct response as [row | e]; cbn [handed_on outcome log final].
    + destruct (IH (final round)) as (tried & Hprefix & Hall & Hreq & Hnolog' & Hend).
      exists (sensor :: tried).
      rewrite inserted_readings_app, random_draws_app, database_requests_app, failed_inserts_app,
        Hins, Hdb.
      split; [by apply prefix_cons |]. split; [| split; [| split]].
      * constructor.
        -- eapply inserted_for_weaken; [| exact Hfor]. intros x Hx. apply elem_of_app. by left.
        -- eapply Forall2_impl; [exact Hall |]. intros sensor' reading' H'.
           eapply inserted_for_weaken; [| exact H']. intros x Hx. apply elem_of_app. by right.
      * by rewrite Hreq.
      * intros message. by rewrite logged_errors_app, Hnolog, Hnolog'.
      * assert (Hnone : failed_inserts (log round) = []) by (by rewrite Hlog).
        rewrite Hnone. cbn [app].
        destruct Hend as [(Hret & -> & Hfail) | (e & before & rows & Hthrown & Hfail & Hlast)].
        -- left. by repeat split.
        -- right. exists e, (log round ++ before), rows.
           split; [done |]. split; [done |]. by rewrite Hlast, app_assoc.
    + exists [sensor]. rewrite Hins, Hdb.
      split; [by apply prefix_cons, prefix_nil |]. split; [by repeat constructor |].
      split; [done |]. split; [exact Hnolog |]. right.
      exists e. eexists (take 5 (log round)), _.
      rewrite Hlog. by repeat split.
Qed.





Lemma prefix_map {A B} (f : A -> B) (l1 l2 : list A) :
  l1 `prefix_of` l2 -> map f l1 `prefix_of` map f l2.
Proof. intros [rest ->]. exists (map f rest). apply map_app. Qed.

Lemma inserted_for_type draws tried readings :
  Forall2 (inserted_for draws) tried readings ->
  map SensorReading.sensor_type readings = map Guarded.SensorSpec.type tried.
Proof.
  induction 1 as [| sensor reading tried readings (? & ? & ? & ? & _ & _ & _ & ->) _ IH];
    [reflexivity |].
  simpl. by rewrite IH.
Qed.

(** X20.  The interval callback of [useSensorData] never throws.  It
    inserts readings for flow, pressure, quality and temperature in this
    order and stops at the first insert that fails: then that error is
    logged with [console.error], the failed insert is the last request
    before the log entry, and the sensors after it get no reading in
    this round.  If no insert fails (and the client is configured) all
    four readings are inserted and nothing is logged. *)
Theorem simulation_callback_never_throws {St} (env : Environment St) (s : St)
    (supabase : option Guarded.SupabaseClient) :
  let r := run env (Hooks.simulationInterval_callback supabase) s in
  outcome r = Returned tt /\
  logged_errors "Failed to simulate sensor data:" (log r) = failed_inserts (log r) /\
  map SensorReading.sensor_type (inserted_readings (log r))
    `prefix_of` ["flow"; "pressure"; "quality"; "temperature"] /\
  match failed_inserts (log r) with
  | [] =>
      is_Some supabase ->
      map SensorReading.sensor_type (inserted_readings (log r))
        = ["flow"; "pressure"; "quality"; "temperature"]
  | e :: more =>
      more = [] /\
      exists before rows,
        log r = before ++ [asked (InsertSingle sensor_readings rows) (Failure e);
                           asked (console_error "Failed to simulate sensor data:" e) tt]
  end.
Proof.
  intros r. subst r. unfold Hooks.simulationInterval_callback. rewrite run_try_catch.
  destruct supabase as [client |]; unfold Guarded.simulateSensorData.
  - destruct (for_of_simulate_log env client Guarded.sensorTypes s)
      as (tried & Hprefix & Hall & Hreq & Hnolog & Hend).
    pose proof (inserted_for_type _ _ _ Hall) as Htypes.
    pose proof (prefix_map Guarded.SensorSpec.type _ _ Hprefix) as Hptypes.
    remember (run env (for_of Guarded.sensorTypes (Guarded.simulate_one (Some client))) s)
      as body eqn:Hbody. clear Hbody.
    destruct Hend as [(Hret & -> & Hfail) | (e & before & rows & Hthrown & Hfail & Hlast)].
    + rewrite Hret, Hfail, Hnolog, Htypes. split; [done |]. split; [done |].
      split; [done |]. by intros _.
    + rewrite Hthrown. run_code.
      destruct (env (console_error "Failed to simulate sensor data:" e) (final body))
        as [[] s1]. cbn [fst snd app].
      rewrite logged_errors_app, failed_inserts_app, inserted_readings_app, map_app,
        Hnolog, Hfail, Htypes.
      cbn. rewrite app_nil_r.
      split; [done |]. split; [done |]. split; [exact Hptypes |]. split; [done |].
      exists before, rows. rewrite Hlast, <- app_assoc. reflexivity.
  - simpl. split; [done |]. split; [done |]. split; [apply prefix_nil |]. by intros [? ?].
Qed.

(** On a backend that denies every insert the first round fails: one
    reading is tried, the error is logged, the callback returns. *)
Example simulation_callback_on_read_only_backend :
  let r := run read_only (Hooks.simulationInterval_callback (Some demo_client)) tt in
  outcome r = Returned tt /\
  map SensorReading.sensor_type (inserted_readings (log r)) = ["flow"] /\
  logged_errors "Failed to simulate sensor data:" (log r) = [Demo.denied].
Proof. repeat apply conj; reflexivity. Qed.

(** ** Instances of the properties above that have hypotheses *)

Lemma handlers_unknown_id_witness :
  ("unknown-001" ∉ map AlertSystem.id AlertSystem.staticAlerts) /\
  AlertSystem.acknowledgeAlert AlertSystem.staticAlerts "unknown-001" = AlertSystem.staticAlerts /\
  AlertSystem.resolveAlert AlertSystem.staticAlerts "unknown-001" = AlertSystem.staticAlerts.
Proof.
  assert (H : "unknown-001" ∉ map AlertSystem.id AlertSystem.staticAlerts).
  { simpl. rewrite !not_elem_of_cons. repeat split; try done. apply not_elem_of_nil. }
  split; [exact H | exact (AlertSystemViewFacts.handlers_unknown_id _ _ H)].
Defined.

Lemma reachable_ids_distinct_witness :
  let alerts := alerts_at 1737469800000 in
  AlertSystem.reachable alerts /\
  NoDup (map AlertSystem.id alerts) /\
  forall i a, alerts !! i = Some a ->
    AlertSystem.acknowledgeAlert alerts (AlertSystem.id a)
      = <[i := AlertSystem.with_acknowledged a]> alerts /\
    AlertSystem.resolveAlert alerts (AlertSystem.id a)
      = <[i := AlertSystem.with_resolved_acknowledged a]> alerts.
Proof.
  assert (H : AlertSystem.reachable (alerts_at 1737469800000)).
  { eapply AlertSystem.reachable_step; [apply AlertSystem.reachable_init |].
    apply AlertSystem.step_effect. }
  split; [exact H | exact (AlertSystemViewFacts.reachable_ids_distinct _ H)].
Defined.



Lemma upload_path_ignores_file_name_witness :
  let env := Demo.environment Demo.healthy in
  Guarded.split_pop (name blurred) "" = Guarded.split_pop (name sharp) "" /\
  (env Date_now tt).1 = (env Date_now tt).1 /\
  (exists path,
     upload_paths (log (run env (Guarded.uploadComplaintPhoto (Some demo_client) blurred "c-17") tt))
       = [("complaint_photos", path)] /\
     upload_paths (log (run env (Guarded.uploadComplaintPhoto (Some demo_client) sharp "c-17") tt))
       = [("complaint_photos", path)]) /\
  (exists path,
     upload_paths (log (run env (Guarded.uploadMaintenancePhoto (Some demo_client) blurred "c-17") tt))
       = [("maintenance_photos", path)] /\
     upload_paths (log (run env (Guarded.uploadMaintenancePhoto (Some demo_client) sharp "c-17") tt))
       = [("maintenance_photos", path)]).
Proof.
  assert (H1 : Guarded.split_pop (name blurred) "" = Guarded.split_pop (name sharp) "")
    by reflexivity.
  assert (H2 : (Demo.environment Demo.healthy Date_now tt).1
               = (Demo.environment Demo.healthy Date_now tt).1) by reflexivity.
  split; [exact H1 |]. split; [exact H2 |].
  exact (upload_path_ignores_file_name (Demo.environment Demo.healthy) tt tt demo_client
           blurred sharp "c-17" H1 H2).
Defined.

